(** * smallsh: a small shell with built-ins

    A shallow embedding of [smallsh.c]: the line parser [getCommand], the
    built-in dispatcher and job launcher [execCommand], the reaper [cleanUp]
    and the interpreter loop of [main].

    One process is modelled at a time.  Its observable behaviour is the
    sequence of system calls and writes it performs (a trace); the answers
    of the operating system (what [fork], [waitpid], [open], ... return) are
    inputs of the model.  Behaviour that C leaves undefined is an explicit
    outcome, so that "the call is well defined" is a statement of the
    model. *)

From Stdlib Require Import ZArith List String Ascii Bool Lia.
From Stdlib Require Import DecimalString.
Import ListNotations.
Open Scope string_scope.
Open Scope Z_scope.

(** ** Constants of the source *)

Definition MAX_CMD_CHARS : Z := 2048.
Definition MAX_CMD_ARGS : Z := 512.
Definition DELIM : string := String " " (String "009" (String "010" "")).
Definition DEVNULL : string := "/dev/null".

(** Signal numbers and flags of the system headers (Linux values). *)
Definition SIGINT : Z := 2.
Definition SIGTERM : Z := 15.
Definition WNOHANG : Z := 1.
Definition O_RDONLY : Z := 0.
Definition O_WRONLY : Z := 1.
Definition O_CREAT : Z := 64.
Definition O_TRUNC : Z := 512.

(** ** struct Command

    [argv] holds the arguments stored so far, [argc] their count; a path is
    [None] where the C pointer is NULL. *)

Record Command := mkCommand {
  argv : list string;
  argc : Z;
  isBgProcess : Z;
  wantsInputR : Z;
  wantsOutputR : Z;
  inRedirFile : option string;
  outRedirFile : option string
}.

(** [initCommand]: every slot of [argv] zeroed, counters and flags 0, both
    paths NULL. *)
Definition initCommand : Command :=
  mkCommand [] 0 0 0 0 None None.

(** ** C library pieces used by the parser *)

(** The result of a step that C may leave undefined. *)
Inductive result (A : Type) : Type :=
| Ok (a : A)
| Undefined (why : string).
Arguments Ok {A} a.
Arguments Undefined {A} why.

Definition rbind {A B} (r : result A) (k : A -> result B) : result B :=
  match r with
  | Ok a => k a
  | Undefined why => Undefined why
  end.

Notation "x <- r ;; k" := (rbind r (fun x => k))
  (at level 61, r at next level, right associativity).

(** [strchr(DELIM, c) != NULL] *)
Fixpoint is_delim_in (d : string) (c : ascii) : bool :=
  match d with
  | EmptyString => false
  | String x d' => Ascii.eqb x c || is_delim_in d' c
  end.

Definition is_delim (c : ascii) : bool := is_delim_in DELIM c.

(** The tokens that the successive [strtok(.., DELIM)] calls return on a
    buffer: the maximal runs of non-delimiter characters, in order, up to
    the end of the C string, which is the first NUL byte of the buffer if
    [fgets] stored one.  [cur] is the token being scanned. *)
Fixpoint strtok_from (buf : string) (cur : string) : list string :=
  match buf with
  | EmptyString =>
      match cur with EmptyString => [] | _ => [cur] end
  | String c rest =>
      if Ascii.eqb c "000" then
        match cur with EmptyString => [] | _ => [cur] end
      else if is_delim c then
        match cur with
        | EmptyString => strtok_from rest ""
        | _ => cur :: strtok_from rest ""
        end
      else strtok_from rest (cur ++ String c "")
  end.

Definition strtok_all (buf : string) : list string := strtok_from buf "".

(** [strdup]: copying a string gives the string; the argument must not be a
    null pointer. *)
Definition strdup (s : option string) : result (option string) :=
  match s with
  | Some t => Ok (Some t)
  | None => Undefined "strdup(NULL)"
  end.

(** [fgets] into a zeroed buffer with room for [n] characters and the
    terminator: at most [n] characters, stopping after the first newline; at
    end of input the buffer stays empty.  Returns the buffer and what is
    left of the stream. *)
Fixpoint fgets (n : nat) (stream : string) : string * string :=
  match n, stream with
  | O, _ => ("", stream)
  | S n', EmptyString => ("", "")
  | S n', String c rest =>
      if Ascii.eqb c "010" then (String c "", rest)
      else let '(b, r) := fgets n' rest in (String c b, r)
  end.

(** ** The token loop of getCommand *)

Definition set_in (c : Command) (f : option string) : Command :=
  mkCommand (argv c) (argc c) (isBgProcess c) 1 (wantsOutputR c)
            f (outRedirFile c).

Definition set_out (c : Command) (f : option string) : Command :=
  mkCommand (argv c) (argc c) (isBgProcess c) (wantsInputR c) 1
            (inRedirFile c) f.

Definition set_bg (c : Command) : Command :=
  mkCommand (argv c) (argc c) 1 (wantsInputR c) (wantsOutputR c)
            (inRedirFile c) (outRedirFile c).

(** [argv[argc++] = strdup(token)]: the slot must lie inside the array. *)
Definition push_arg (c : Command) (t : string) : result Command :=
  if argc c <? MAX_CMD_ARGS then
    Ok (mkCommand (argv c ++ [t]) (argc c + 1) (isBgProcess c)
                  (wantsInputR c) (wantsOutputR c)
                  (inRedirFile c) (outRedirFile c))
  else Undefined "argv[argc++]: store past the end of argv".

(** The [while (token)] loop, on the tokens that [strtok] still has to
    return.  A redirection marker takes the next [strtok] result as its
    path, which is NULL when the tokens are exhausted; the [strtok] call
    that ends the iteration then returns NULL again. *)
Fixpoint parse_tokens (toks : list string) (c : Command) : result Command :=
  match toks with
  | [] => Ok c
  | t :: rest =>
      if String.eqb t "<" then
        match rest with
        | [] => f <- strdup None ;; Ok (set_in c f)
        | p :: rest' => f <- strdup (Some p) ;; parse_tokens rest' (set_in c f)
        end
      else if String.eqb t ">" then
        match rest with
        | [] => f <- strdup None ;; Ok (set_out c f)
        | p :: rest' => f <- strdup (Some p) ;; parse_tokens rest' (set_out c f)
        end
      else if String.eqb t "&" then
        parse_tokens rest (set_bg c)
      else
        c' <- push_arg c t ;; parse_tokens rest c'
  end.

(** [argv[argc] = NULL] after the loop. *)
Definition terminate_argv (c : Command) : result Command :=
  if argc c <? MAX_CMD_ARGS then Ok c
  else Undefined "argv[argc] = NULL: store past the end of argv".

(** The part of [getCommand] that follows [fgets]: tokenise the buffer,
    run the loop on a fresh descriptor, terminate [argv]. *)
Definition parse_input (input : string) : result Command :=
  c <- parse_tokens (strtok_all input) initCommand ;; terminate_argv c.

(** ** Wait status macros (glibc, <sys/wait.h>) *)

Definition WTERMSIG (status : Z) : Z := Z.land status 127.
Definition WEXITSTATUS (status : Z) : Z := Z.shiftr (Z.land status 65280) 8.
Definition WIFEXITED (status : Z) : bool := WTERMSIG status =? 0.

(** [(signed char) v] for [0 <= v < 256]. *)
Definition signed_char (v : Z) : Z := if v <? 128 then v else v - 256.

Definition WIFSIGNALED (status : Z) : bool :=
  Z.shiftr (signed_char (Z.land status 127 + 1)) 1 >? 0.

(** How a child ended, and the status word that [waitpid] stores for it
    ([W_EXITCODE], with the core-dump flag 0x80). *)
Inductive termination :=
| Exited (code : Z)
| Signaled (sig : Z) (core : bool).

Definition wait_status_of (t : termination) : Z :=
  match t with
  | Exited code => Z.shiftl code 8
  | Signaled sig core => Z.lor sig (if core then 128 else 0)
  end.

(** ** Formatting *)

Definition nl : string := String "010" "".

(** [%d] *)
Definition fmt_d (n : Z) : string := NilEmpty.string_of_int (Z.to_int n).

(** ** The state of one process *)

Inductive sighandler := SIG_DFL | SIG_IGN.

(** What a standard descriptor of the process is bound to. *)
Inductive binding :=
| Inherited
| ToFile (path : string)
| Closed.

Inductive event :=
| Write (fd : Z) (text : string)
| Fgets (input : string)
| Sigaction (sig : Z) (h : sighandler)
| Kill (pid sig : Z)
| Fork (ret : Z)
| Waitpid (pid options ret status : Z)
| Getenv (name : string)
| Chdir (dir : option string) (ret : Z)
| Open (path : option string) (flags : Z) (ret : Z)
| Dup2 (fd newfd ret : Z)
| Close (fd : Z)
| Execvp (file : string) (args : list string) (found : bool).

(** [ENDSTATE] and [action_handler] ([action.sa_handler]) are the globals of
    the source; [sigint] and [sigterm] are the dispositions the kernel holds
    for the process; [fd0], [fd1] the bindings of standard input and output;
    [stdin] the input not yet read; [trace] what the process has done so
    far, oldest first. *)
Record Proc := mkProc {
  ENDSTATE : string;
  action_handler : sighandler;
  sigint : sighandler;
  sigterm : sighandler;
  fd0 : binding;
  fd1 : binding;
  stdin : string;
  trace : list event
}.

Definition emit (e : event) (p : Proc) : Proc :=
  mkProc (ENDSTATE p) (action_handler p) (sigint p) (sigterm p)
         (fd0 p) (fd1 p) (stdin p) (trace p ++ [e]).

Definition set_ENDSTATE (s : string) (p : Proc) : Proc :=
  mkProc s (action_handler p) (sigint p) (sigterm p)
         (fd0 p) (fd1 p) (stdin p) (trace p).

Definition set_stdin (s : string) (p : Proc) : Proc :=
  mkProc (ENDSTATE p) (action_handler p) (sigint p) (sigterm p)
         (fd0 p) (fd1 p) s (trace p).

Definition set_fd0 (b : binding) (p : Proc) : Proc :=
  mkProc (ENDSTATE p) (action_handler p) (sigint p) (sigterm p)
         b (fd1 p) (stdin p) (trace p).

Definition set_fd1 (b : binding) (p : Proc) : Proc :=
  mkProc (ENDSTATE p) (action_handler p) (sigint p) (sigterm p)
         (fd0 p) b (stdin p) (trace p).

(** [action.sa_handler = h; sigaction(SIGINT, &action, NULL);] *)
Definition sigaction_SIGINT (h : sighandler) (p : Proc) : Proc :=
  let p1 := mkProc (ENDSTATE p) h (sigint p) (sigterm p)
                   (fd0 p) (fd1 p) (stdin p) (trace p) in
  let p2 := emit (Sigaction SIGINT (action_handler p1)) p1 in
  mkProc (ENDSTATE p2) (action_handler p2) (action_handler p2) (sigterm p2)
         (fd0 p2) (fd1 p2) (stdin p2) (trace p2).

(** How a function of the process ends: it returns, the process exits,
    replaces its image, or is terminated by a signal; [Waiting] is the
    interpreter loop with no further step to take in the model;
    [Undef] is undefined behaviour. *)
Inductive outcome (A : Type) : Type :=
| Returns (a : A) (p : Proc)
| Exits (code : Z) (p : Proc)
| Execs (file : string) (args : list string) (p : Proc)
| Killed (sig : Z) (p : Proc)
| Waiting (p : Proc)
| Undef (why : string).
Arguments Returns {A} a p.
Arguments Exits {A} code p.
Arguments Execs {A} file args p.
Arguments Killed {A} sig p.
Arguments Waiting {A} p.
Arguments Undef {A} why.

Definition obind {A B} (o : outcome A) (k : A -> Proc -> outcome B)
  : outcome B :=
  match o with
  | Returns a p => k a p
  | Exits code p => Exits code p
  | Execs file args p => Execs file args p
  | Killed sig p => Killed sig p
  | Waiting p => Waiting p
  | Undef why => Undef why
  end.

(** The state in which a process ends, when it has one. *)
Definition final_proc {A} (o : outcome A) : option Proc :=
  match o with
  | Returns _ p | Exits _ p | Execs _ _ p | Killed _ p | Waiting p => Some p
  | Undef _ => None
  end.

(** ** getCommand *)

(** Prompt, [fgets] into the zeroed 2048-byte buffer, parse.  Allocation
    ([malloc], [strdup] of a string) is taken to succeed. *)
Definition getCommand (p : Proc) : outcome Command :=
  let p1 := emit (Write 1 ": ") p in
  let '(input, rest) := fgets (Z.to_nat (MAX_CMD_CHARS - 1)) (stdin p1) in
  let p2 := emit (Fgets input) (set_stdin rest p1) in
  match parse_input input with
  | Ok cmd => Returns cmd p2
  | Undefined why => Undef why
  end.

(** ** cleanUp: the reaper *)

Definition report_done (childPid status : Z) (p : Proc) : Proc :=
  if WIFEXITED status then
    emit (Write 1 ("background pid " ++ fmt_d childPid
                   ++ " is done: exit value "
                   ++ fmt_d (WEXITSTATUS status) ++ nl)) p
  else if WIFSIGNALED status then
    emit (Write 1 ("background pid " ++ fmt_d childPid
                   ++ " is done: terminated by signal "
                   ++ fmt_d (WTERMSIG status) ++ nl)) p
  else p.

(** [answers] are the results [(childPid, status)] that the successive
    [waitpid(-1, &status, WNOHANG)] calls give.  The loop runs while the
    result is positive; an exhausted list stands for the answer -1 (no child
    is left). *)
Fixpoint cleanUp (answers : list (Z * Z)) (p : Proc) : Proc :=
  match answers with
  | [] => emit (Waitpid (-1) WNOHANG (-1) 0) p
  | (childPid, status) :: more =>
      let p1 := emit (Waitpid (-1) WNOHANG childPid status) p in
      if childPid >? 0 then cleanUp more (report_done childPid status p1)
      else p1
  end.

(** ** execCommand *)

(** What the operating system answers to the calls of one [execCommand]:
    the result of [fork]; the result of the blocking [waitpid], which is the
    pid of the child or -1, and the content of [status] after that call,
    which is the status of the child when the call succeeded and whatever
    the unset variable held when it failed; the value of HOME; the results
    of [chdir], of the two [open] and the two [dup2] calls; and whether
    [execvp] finds the program. *)
Record os_reply := mkReply {
  fork_ret : Z;
  wait_ret : Z;
  wait_status : Z;
  home : option string;
  chdir_ret : Z;
  open_in_ret : Z;
  open_out_ret : Z;
  dup2_in_ret : Z;
  dup2_out_ret : Z;
  execvp_found : bool
}.

(** [open] on a null path fails (EFAULT); otherwise the kernel decides. *)
Definition sys_open (path : option string) (answer : Z) : Z :=
  match path with
  | None => -1
  | Some _ => answer
  end.

(** [strncmp(s, "#", 1) == 0] *)
Definition starts_with_hash (s : string) : bool :=
  match s with
  | String c _ => Ascii.eqb c "#"
  | EmptyString => false
  end.

(** The signal policy of the child, lines 254-273: a foreground child
    restores the default disposition of SIGINT; a background child keeps
    what it inherited and has missing redirection paths replaced by
    [DEVNULL]. *)
Definition child_policy (cmdInfo : Command) (p : Proc) : Command * Proc :=
  if isBgProcess cmdInfo =? 0 then
    (cmdInfo, sigaction_SIGINT SIG_DFL p)
  else
    let c1 :=
      match inRedirFile cmdInfo with
      | None =>
          if wantsInputR cmdInfo =? 1 then
            mkCommand (argv cmdInfo) (argc cmdInfo) (isBgProcess cmdInfo)
                      (wantsInputR cmdInfo) (wantsOutputR cmdInfo)
                      (Some DEVNULL) (outRedirFile cmdInfo)
          else cmdInfo
      | Some _ => cmdInfo
      end in
    let c2 :=
      match outRedirFile c1 with
      | None =>
          if wantsOutputR c1 =? 1 then
            mkCommand (argv c1) (argc c1) (isBgProcess c1)
                      (wantsInputR c1) (wantsOutputR c1)
                      (inRedirFile c1) (Some DEVNULL)
          else c1
      | Some _ => c1
      end in
    (c2, p).

(** [b] becomes the binding of descriptor [fd], when that is one of the two
    standard descriptors followed here. *)
Definition bind_fd (fd : Z) (b : binding) (p : Proc) : Proc :=
  if fd =? 0 then set_fd0 b p else if fd =? 1 then set_fd1 b p else p.

(** One redirection, lines 276-299 and 302-321: open, report and exit 1 on
    failure, [dup2] onto the standard descriptor, close.  After [dup2] the
    target refers to the file; [close(fd)] then closes the descriptor that
    [open] returned, which is the target itself when [open] returned it (a
    standard descriptor that was closed when the shell started), and the
    stream is then left closed.  [%s] with a null pointer is undefined. *)
Definition redirect (wants : Z) (path : option string) (flags : Z)
    (open_answer dup2_answer : Z) (target : Z) (what : string)
    (p : Proc) : outcome unit :=
  if wants =? 1 then
    let fd := sys_open path open_answer in
    let p1 := emit (Open path flags fd) p in
    if fd =? -1 then
      match path with
      | Some f =>
          Exits 1 (emit (Write 2 ("cannot open " ++ f ++ " for " ++ what
                                  ++ nl)) p1)
      | None => Undef "fprintf: %s with a null pointer"
      end
    else
      let p2 := emit (Dup2 fd target dup2_answer) p1 in
      if dup2_answer =? -1 then
        Exits 1 (emit (Write 2 "dup2 error") p2)
      else
        let b := match path with Some f => ToFile f | None => Inherited end in
        let p3 := bind_fd target b p2 in
        Returns tt (bind_fd fd Closed (emit (Close fd) p3))
  else Returns tt p.

(** [execvp(argv[0], argv)] and the report when it fails. *)
Definition do_execvp (name : string) (args : list string) (found : bool)
    (p : Proc) : outcome Z :=
  let p1 := emit (Execvp name args found) p in
  if found then Execs name args p1
  else Exits 1 (emit (Write 2 (name ++ ": no such file or directory" ++ nl))
                     p1).

(** The branch [pid == 0]. *)
Definition child (name : string) (cmdInfo : Command) (os : os_reply)
    (p : Proc) : outcome Z :=
  let '(c, p1) := child_policy cmdInfo p in
  obind (redirect (wantsInputR c) (inRedirFile c) O_RDONLY
                  (open_in_ret os) (dup2_in_ret os) 0 "input" p1)
    (fun _ p2 =>
  obind (redirect (wantsOutputR c) (outRedirFile c)
                  (Z.lor O_WRONLY (Z.lor O_CREAT O_TRUNC))
                  (open_out_ret os) (dup2_out_ret os) 1 "output" p2)
    (fun _ p3 =>
  do_execvp name (argv c) (execvp_found os) p3)).

(** The branch [pid > 0].  The result of the blocking
    [waitpid(pid, &status, 0)] is not looked at: [status] is decoded as it
    is after the call, whether or not the call stored anything in it. *)
Definition parent (pid : Z) (cmdInfo : Command) (os : os_reply)
    (p : Proc) : outcome Z :=
  if isBgProcess cmdInfo =? 0 then
    let status := wait_status os in
    let p1 := emit (Waitpid pid 0 (wait_ret os) status) p in
    if WIFEXITED status then
      Returns 0 (set_ENDSTATE ("exit value " ++ fmt_d (WEXITSTATUS status)) p1)
    else if WIFSIGNALED status then
      let p2 := set_ENDSTATE ("terminated by signal "
                              ++ fmt_d (WTERMSIG status)) p1 in
      Returns 0 (emit (Write 1 (ENDSTATE p2 ++ nl)) p2)
    else Returns 0 p1
  else
    Returns 0 (emit (Write 1 ("background pid is " ++ fmt_d pid ++ nl)) p).

(** [kill(0, SIGTERM)]: the signal goes to every process of the caller's
    process group, the caller included, and is delivered to the caller
    before [kill] returns.  With the default disposition the caller is
    terminated; ignored, it goes on. *)
Definition kill_group_SIGTERM (p : Proc) : outcome unit :=
  let p1 := emit (Kill 0 SIGTERM) p in
  match sigterm p1 with
  | SIG_DFL => Killed SIGTERM p1
  | SIG_IGN => Returns tt p1
  end.

(** The [cd] built-in, lines 217-240: to [argv[1]], or to HOME when there
    is none; the record is set to success first and to failure when [chdir]
    returns -1. *)
Definition builtin_cd (args : list string) (os : os_reply) (p : Proc)
  : outcome Z :=
  let '(directory, p1) :=
    match args with
    | [] => (home os, emit (Getenv "HOME") p)
    | d :: _ => (Some d, p)
    end in
  let p2 := set_ENDSTATE "exit value 0" p1 in
  let p3 := emit (Chdir directory (chdir_ret os)) p2 in
  if chdir_ret os =? -1 then
    Returns 0 (set_ENDSTATE "exit value 1"
                 (emit (Write 2 ("no such file or directory" ++ nl)) p3))
  else Returns 0 p3.

(** Anything else, lines 242-369: [fork], then the child, the parent, or
    the report of a failed [fork] and [exit(1)]. *)
Definition launch (name : string) (cmdInfo : Command) (os : os_reply)
    (p : Proc) : outcome Z :=
  let pid := fork_ret os in
  let p1 := emit (Fork pid) p in
  if pid =? 0 then child name cmdInfo os p1
  else if pid >? 0 then parent pid cmdInfo os p1
  else Exits 1 (emit (Write 2 "fork error") p1).

(** The value returned is [exitCalled]: 1 after [exit], 0 otherwise. *)
Definition execCommand (cmdInfo : Command) (os : os_reply) (p : Proc)
  : outcome Z :=
  match argv cmdInfo with
  | [] => Returns 0 p
  | name :: args =>
      if argc cmdInfo =? 0 then Returns 0 p
      else if starts_with_hash name then Returns 0 p
      else if String.eqb name "exit" then
        obind (kill_group_SIGTERM p) (fun _ p1 => Returns 1 p1)
      else if String.eqb name "status" then
        let p1 := emit (Write 1 (ENDSTATE p ++ nl)) p in
        Returns 0 (set_ENDSTATE "exit value 0" p1)
      else if String.eqb name "cd" then builtin_cd args os p
      else launch name cmdInfo os p
  end.

(** ** main *)

(** One pass of the [do ... while] body needs the answers to the reaper's
    calls and to those of [execCommand]. *)
Record iteration := mkIteration {
  reaped : list (Z * Z);
  reply : os_reply
}.

(** The loop, for as many passes as [script] has answers; [Waiting] when
    they run out with the shell still alive.  Leaving the loop, [main]
    returns 0: the process exits with code 0. *)
Fixpoint shell_loop (script : list iteration) (p : Proc) : outcome Z :=
  match script with
  | [] => Waiting p
  | it :: script' =>
      obind (getCommand (cleanUp (reaped it) p)) (fun cmdInfo p1 =>
      obind (execCommand cmdInfo (reply it) p1) (fun exitCalled p2 =>
      if exitCalled =? 0 then shell_loop script' p2 else Exits 0 p2))
  end.

(** The process as it starts: [ENDSTATE] holds "NULL", [action] is zeroed,
    the dispositions of SIGINT and SIGTERM are those inherited. *)
Definition start (int term : sighandler) (input : string) : Proc :=
  mkProc "NULL" SIG_DFL int term Inherited Inherited input [].

Definition main_from (script : list iteration) (p : Proc) : outcome Z :=
  shell_loop script (sigaction_SIGINT SIG_IGN p).

Definition main (int term : sighandler) (input : string)
    (script : list iteration) : outcome Z :=
  main_from script (start int term input).

(** ** Notions used to state the properties *)

(** The buffer that the next [getCommand] of the process reads. *)
Definition line_read (p : Proc) : string :=
  fst (fgets (Z.to_nat (MAX_CMD_CHARS - 1)) (stdin p)).

(** The tokens that the loop of [getCommand] examines at the top of a pass:
    all of them but those taken as the path of a redirection marker. *)
Fixpoint command_position (toks : list string) : list string :=
  match toks with
  | [] => []
  | t :: rest =>
      if String.eqb t "<" || String.eqb t ">" then
        match rest with
        | [] => [t]
        | _ :: rest' => t :: command_position rest'
        end
      else t :: command_position rest
  end.

(** The reading of the background marker that ties it to the end of the
    line: the flag is set exactly when the last token is [&]. *)
Definition bg_iff_last_token (p : Proc) : Prop :=
  forall cmd q,
    getCommand p = Returns cmd q ->
    (isBgProcess cmd = 1 <-> last (strtok_all (line_read p)) "" = "&").

(** The command names a program to launch: it is not blank, not a comment
    and not a built-in. *)
Definition external (cmdInfo : Command) : bool :=
  match argv cmdInfo with
  | [] => false
  | name :: _ =>
      negb (argc cmdInfo =? 0) && negb (starts_with_hash name)
      && negb (String.eqb name "exit") && negb (String.eqb name "status")
      && negb (String.eqb name "cd")
  end.

(** The command is the built-in [name]. *)
Definition builtin (name : string) (cmdInfo : Command) : bool :=
  match argv cmdInfo with
  | [] => false
  | n :: _ => negb (argc cmdInfo =? 0) && String.eqb n name
  end.

(** The command writes the process-exit record when dispatched by the
    shell: [status], [cd], or a program launched in the foreground. *)
Definition records (cmdInfo : Command) : bool :=
  builtin "status" cmdInfo || builtin "cd" cmdInfo
  || (external cmdInfo && (isBgProcess cmdInfo =? 0)).

(** The buffers read so far, from the trace. *)
Fixpoint lines_read (tr : list event) : list string :=
  match tr with
  | [] => []
  | Fgets input :: tr' => input :: lines_read tr'
  | _ :: tr' => lines_read tr'
  end.

(** A line that, parsed, does not write the process-exit record. *)
Definition quiet_line (input : string) : Prop :=
  forall cmd, parse_input input = Ok cmd -> records cmd = false.

Definition is_sigaction (e : event) : bool :=
  match e with Sigaction _ _ => true | _ => false end.

Definition is_fork0 (e : event) : bool :=
  match e with Fork 0 => true | _ => false end.

Definition is_waitpid (e : event) : bool :=
  match e with Waitpid _ _ _ _ => true | _ => false end.

Definition is_write_to (fd : Z) (e : event) : bool :=
  match e with Write fd' _ => fd' =? fd | _ => false end.

(** Every wait of a trace, read newest first, is either the non-blocking
    wait for any child or a blocking wait for the child that the [fork]
    just before it created. *)
Fixpoint waits_ok_rev (r : list event) : bool :=
  match r with
  | [] => true
  | Waitpid pid options _ _ :: r' =>
      (((pid =? -1) && (options =? WNOHANG))
       || ((options =? 0) && (0 <? pid)
           && match r' with
              | Fork pid' :: _ => pid' =? pid
              | _ => false
              end))
      && waits_ok_rev r'
  | _ :: r' => waits_ok_rev r'
  end.


(** How the end of a child reads in the reports. *)
Definition describe (t : termination) : string :=
  match t with
  | Exited code => "exit value " ++ fmt_d code
  | Signaled sig _ => "terminated by signal " ++ fmt_d sig
  end.

(** A termination that a status word can carry. *)
Definition valid_termination (t : termination) : Prop :=
  match t with
  | Exited code => 0 <= code <= 255
  | Signaled sig _ => 1 <= sig <= 126
  end.



(** Delivery of SIGINT to a process: terminated under the default
    disposition, unaffected when the signal is ignored. *)
Definition deliver_SIGINT (p : Proc) : outcome unit :=
  match sigint p with
  | SIG_DFL => Killed SIGINT p
  | SIG_IGN => Returns tt p
  end.

(** [p] with further events at the end of its trace, nothing else changed. *)
Definition emits (evs : list event) (p : Proc) : Proc :=
  mkProc (ENDSTATE p) (action_handler p) (sigint p) (sigterm p)
         (fd0 p) (fd1 p) (stdin p) (trace p ++ evs).

(** The events of the reaper: non-blocking waits for any child, and lines
    on standard output. *)
Definition reaper_event (e : event) : bool :=
  match e with
  | Waitpid pid options _ _ => (pid =? -1) && (options =? WNOHANG)
  | Write fd _ => fd =? 1
  | _ => false
  end.

(** The events of a child between the signal policy and the new image:
    redirection, the attempt to execute, reports on standard error. *)
Definition setup_event (e : event) : bool :=
  match e with
  | Open _ _ _ | Dup2 _ _ _ | Close _ | Execvp _ _ _ => true
  | Write fd _ => fd =? 2
  | _ => false
  end.

(** The process is a child of the shell: it has seen [fork] return 0. *)
Definition is_child (p : Proc) : bool := existsb is_fork0 (trace p).


(** [q] is [p] after some steps of child setup: further setup events in
    the trace, possibly new bindings of the standard descriptors, nothing
    else changed. *)
Definition setup_step (p q : Proc) : Prop :=
  ENDSTATE q = ENDSTATE p /\ sigint q = sigint p /\ sigterm q = sigterm p
  /\ stdin q = stdin p
  /\ exists evs, trace q = (trace p ++ evs)%list
                 /\ forallb setup_event evs = true.

(** The summary of a call used for the properties of whole sessions: the
    trace only grows, no line is read, the record changes only for a
    command that [records], waits have the allowed shape, a background command adds no wait, and the
    disposition of SIGINT changes only in a child. *)
Definition call_summary (cmd : Command) (p q : Proc) : Prop :=
  sigterm q = sigterm p
  /\ exists evs,
       trace q = (trace p ++ evs)%list
       /\ lines_read evs = []
       /\ (records cmd = false -> ENDSTATE q = ENDSTATE p)
       /\ (forall r, waits_ok_rev (rev evs ++ r) = waits_ok_rev r)
       /\ ((isBgProcess cmd =? 0) = false -> existsb is_waitpid evs = false)
       /\ (existsb is_fork0 evs = true
           \/ (existsb is_fork0 evs = false /\ sigint q = sigint p
               /\ filter is_sigaction evs = [])).

(** ** Notions for the further properties *)

(** A string without delimiter characters, and one without NUL characters;
    a word is a string with neither that is not empty. *)
Fixpoint no_delim (s : string) : bool :=
  match s with
  | EmptyString => true
  | String c s' => negb (is_delim c) && no_delim s'
  end.

Fixpoint no_nul (s : string) : bool :=
  match s with
  | EmptyString => true
  | String c s' => negb (Ascii.eqb c "000") && no_nul s'
  end.

Definition word (t : string) : Prop :=
  t <> "" /\ no_delim t = true /\ no_nul t = true.

Fixpoint newline_free (s : string) : bool :=
  match s with
  | EmptyString => true
  | String c s' => negb (Ascii.eqb c "010") && newline_free s'
  end.

(** One of the three symbols the token loop treats specially. *)
Definition is_marker (t : string) : bool :=
  String.eqb t "<" || String.eqb t ">" || String.eqb t "&".

(** The descriptors that [getCommand] hands to the dispatcher, for a line
    with tokens [toks]: the count agrees with the array and leaves room for
    the terminator, the flags are 0 or 1, a redirection is requested exactly
    when its path is present, and arguments and paths are tokens of the
    line, no argument being a marker. *)
Definition well_formed (toks : list string) (c : Command) : Prop :=
  argc c = Z.of_nat (List.length (argv c))
  /\ (isBgProcess c = 0 \/ isBgProcess c = 1)
  /\ (wantsInputR c = 1 /\ inRedirFile c <> None
      \/ wantsInputR c = 0 /\ inRedirFile c = None)
  /\ (wantsOutputR c = 1 /\ outRedirFile c <> None
      \/ wantsOutputR c = 0 /\ outRedirFile c = None)
  /\ (forall a, In a (argv c) -> In a toks /\ is_marker a = false)
  /\ (forall f, inRedirFile c = Some f -> In f toks)
  /\ (forall f, outRedirFile c = Some f -> In f toks).

(** Events by which a process creates, waits for or becomes a program. *)
Definition spawns (e : event) : bool :=
  match e with
  | Fork _ | Waitpid _ _ _ _ | Open _ _ _ | Dup2 _ _ _ | Close _
  | Execvp _ _ _ | Sigaction _ _ => true
  | _ => false
  end.

(** The texts that the process-exit record can hold. *)
Definition record_shape (s : string) : Prop :=
  s = "NULL"
  \/ (exists n, 0 <= n <= 255 /\ s = "exit value " ++ fmt_d n)
  \/ (exists n, 1 <= n <= 126 /\ s = "terminated by signal " ++ fmt_d n).

Definition is_output_open (e : event) : bool :=
  match e with
  | Open _ flags _ => flags =? Z.lor O_WRONLY (Z.lor O_CREAT O_TRUNC)
  | _ => false
  end.

Definition is_execvp (e : event) : bool :=
  match e with Execvp _ _ _ => true | _ => false end.

(** Every read of a trace, read newest first, comes right after the
    prompt. *)
Fixpoint reads_prompted_rev (r : list event) : bool :=
  match r with
  | [] => true
  | Fgets _ :: r' =>
      match r' with
      | Write 1 text :: _ => String.eqb text ": "
      | _ => false
      end && reads_prompted_rev r'
  | _ :: r' => reads_prompted_rev r'
  end.

Definition reads_prompted (tr : list event) : bool :=
  reads_prompted_rev (rev tr).

Definition is_fgets (e : event) : bool :=
  match e with Fgets _ => true | _ => false end.




(** The undefined steps of the parser. *)
Definition parser_fault (why : string) : Prop :=
  why = "strdup(NULL)"
  \/ why = "argv[argc++]: store past the end of argv"
  \/ why = "argv[argc] = NULL: store past the end of argv".

(** * Properties *)

(** ** The parser *)

Section Parser.

Lemma push_arg_ok (c c' : Command) (t : string) :
  push_arg c t = Ok c' ->
  argv c' = (argv c ++ [t])%list /\ isBgProcess c' = isBgProcess c.
Proof.
  unfold push_arg. destruct (argc c <? MAX_CMD_ARGS); [|discriminate].
  intros H. injection H as <-. split; reflexivity.
Qed.

(** What one run of the token loop does to the background flag and to the
    argument array. *)
Lemma parse_tokens_flag (n : nat) :
  forall toks c c',
    (List.length toks <= n)%nat ->
    parse_tokens toks c = Ok c' ->
    (isBgProcess c' = 1 <->
       isBgProcess c = 1 \/ In "&" (command_position toks))
    /\ (forall a, In a (argv c') -> In a (argv c) \/ a <> "&").
Proof.
  induction n as [|n IH]; intros toks c c' Hlen.
  - destruct toks; [|simpl in Hlen; lia].
    simpl. intros H. injection H as <-. split; [tauto|auto].
  - destruct toks as [|t rest].
    { simpl. intros H. injection H as <-. split; [tauto|auto]. }
    simpl in Hlen. simpl parse_tokens. simpl command_position.
    destruct (String.eqb_spec t "<") as [->|Hlt].
    { simpl. destruct rest as [|p rest']; [discriminate|].
      simpl. intros H. apply IH in H; [|simpl in Hlen; lia].
      destruct H as [Hbg Harg]. simpl in Hbg, Harg. split.
      - rewrite Hbg. split; intros [?|?]; auto.
        destruct H as [H|H]; [discriminate|auto].
      - exact Harg. }
    destruct (String.eqb_spec t ">") as [->|Hgt].
    { simpl. destruct rest as [|p rest']; [discriminate|].
      simpl. intros H. apply IH in H; [|simpl in Hlen; lia].
      destruct H as [Hbg Harg]. simpl in Hbg, Harg. split.
      - rewrite Hbg. split; intros [?|?]; auto.
        destruct H as [H|H]; [discriminate|auto].
      - exact Harg. }
    simpl. destruct (String.eqb_spec t "&") as [->|Hamp].
    { intros H. apply IH in H; [|lia].
      destruct H as [Hbg Harg]. simpl in Hbg, Harg. split.
      - rewrite Hbg. split; intros _; auto.
      - exact Harg. }
    destruct (push_arg c t) as [c1|why] eqn:Hpush; [|discriminate].
    simpl. intros H. apply IH in H; [|lia].
    destruct H as [Hbg Harg].
    destruct (push_arg_ok _ _ _ Hpush) as [Hargv Hflag]. split.
    + rewrite Hbg, Hflag. split; intros [?|?]; auto.
      destruct H as [H|H]; [congruence|auto].
    + intros a Ha. apply Harg in Ha. destruct Ha as [Ha|Ha]; [|auto].
      rewrite Hargv in Ha. apply in_app_or in Ha.
      destruct Ha as [Ha|[<-|[]]]; auto.
Qed.

(** The flag only ever holds 0 or 1. *)
Lemma parse_tokens_flag_range :
  forall n toks c c',
    (List.length toks <= n)%nat ->
    parse_tokens toks c = Ok c' ->
    (isBgProcess c = 0 \/ isBgProcess c = 1) ->
    isBgProcess c' = 0 \/ isBgProcess c' = 1.
Proof.
  induction n as [|n IH]; intros toks c c' Hlen.
  - destruct toks; [|simpl in Hlen; lia].
    simpl. intros H. injection H as <-. auto.
  - destruct toks as [|t rest].
    { simpl. intros H. injection H as <-. auto. }
    simpl in Hlen. simpl parse_tokens.
    destruct (String.eqb t "<").
    { destruct rest as [|p rest']; [discriminate|].
      simpl. intros H Hc.
      eapply IH; [|exact H|exact Hc]. simpl in Hlen. lia. }
    destruct (String.eqb t ">").
    { destruct rest as [|p rest']; [discriminate|].
      simpl. intros H Hc.
      eapply IH; [|exact H|exact Hc]. simpl in Hlen. lia. }
    destruct (String.eqb t "&").
    { intros H _. eapply IH; [|exact H|simpl; auto]. lia. }
    destruct (push_arg c t) as [c1|why] eqn:Hpush; [|discriminate].
    simpl. intros H Hc. eapply IH; [|exact H|]; [lia|].
    destruct (push_arg_ok _ _ _ Hpush) as [_ ->]. exact Hc.
Qed.

(** Without redirection markers every token is in command position. *)
Lemma command_position_plain (toks : list string) :
  (forall t, In t toks -> t <> "<" /\ t <> ">") ->
  command_position toks = toks.
Proof.
  induction toks as [|t rest IH]; intros H; [reflexivity|].
  simpl. destruct (H t (or_introl eq_refl)) as [Hlt Hgt].
  apply String.eqb_neq in Hlt, Hgt. rewrite Hlt, Hgt. simpl.
  f_equal. apply IH. intros u Hu. apply H. right. exact Hu.
Qed.

(** A descriptor that the loop completes has a path wherever it asks for a
    redirection. *)
Lemma parse_tokens_paths :
  forall n toks c c',
    (List.length toks <= n)%nat ->
    parse_tokens toks c = Ok c' ->
    (wantsInputR c = 1 -> inRedirFile c <> None) ->
    (wantsOutputR c = 1 -> outRedirFile c <> None) ->
    (wantsInputR c' = 1 -> inRedirFile c' <> None)
    /\ (wantsOutputR c' = 1 -> outRedirFile c' <> None).
Proof.
  induction n as [|n IH]; intros toks c c' Hlen.
  - destruct toks; [|simpl in Hlen; lia].
    simpl. intros H. injection H as <-. auto.
  - destruct toks as [|t rest].
    { simpl. intros H. injection H as <-. auto. }
    simpl in Hlen. simpl parse_tokens.
    destruct (String.eqb t "<").
    { destruct rest as [|p rest']; [discriminate|].
      simpl. intros H Hi Ho.
      eapply IH; [|exact H| |]; simpl; [simpl in Hlen; lia|discriminate|auto]. }
    destruct (String.eqb t ">").
    { destruct rest as [|p rest']; [discriminate|].
      simpl. intros H Hi Ho.
      eapply IH; [|exact H| |]; simpl; [simpl in Hlen; lia|auto|discriminate]. }
    destruct (String.eqb t "&").
    { intros H Hi Ho. eapply IH; [|exact H| |]; simpl; [lia|auto|auto]. }
    unfold push_arg. destruct (argc c <? MAX_CMD_ARGS); [|discriminate].
    simpl. intros H Hi Ho. eapply IH; [|exact H| |]; simpl; [lia|auto|auto].
Qed.

Lemma parse_input_inv (input : string) (cmd : Command) :
  parse_input input = Ok cmd ->
  parse_tokens (strtok_all input) initCommand = Ok cmd.
Proof.
  unfold parse_input.
  destruct (parse_tokens (strtok_all input) initCommand) as [c|why];
    [|discriminate].
  simpl. unfold terminate_argv.
  destruct (argc c <? MAX_CMD_ARGS); [|discriminate].
  intros H. injection H as <-. reflexivity.
Qed.

Lemma getCommand_inv (p q : Proc) (cmd : Command) :
  getCommand p = Returns cmd q ->
  parse_input (line_read p) = Ok cmd
  /\ q = emit (Fgets (line_read p))
           (set_stdin (snd (fgets (Z.to_nat (MAX_CMD_CHARS - 1)) (stdin p)))
                      (emit (Write 1 ": ") p)).
Proof.
  unfold getCommand, line_read. simpl stdin.
  destruct (fgets (Z.to_nat (MAX_CMD_CHARS - 1)) (stdin p)) as [input rest].
  simpl fst. simpl snd.
  destruct (parse_input input) as [c|why]; [|discriminate].
  intros H. injection H as <- <-. split; reflexivity.
Qed.

End Parser.

(** C8 (amended).  The parser sets [isBgProcess] to 1 exactly when some
    token that it reads in command position (any token but the one taken as
    the path of a preceding [<] or [>]) is [&], wherever that token stands
    in the line; the flag is 0 or 1; an [&] token is never stored in the
    argument array; and on a line without redirection markers the flag is 1
    exactly when [&] occurs among the tokens. *)
Theorem C8_background_marker (p q : Proc) (cmd : Command) :
  getCommand p = Returns cmd q ->
  (isBgProcess cmd = 1 <->
     In "&" (command_position (strtok_all (line_read p))))
  /\ (isBgProcess cmd = 0 \/ isBgProcess cmd = 1)
  /\ ~ In "&" (argv cmd)
  /\ ((forall t, In t (strtok_all (line_read p)) -> t <> "<" /\ t <> ">") ->
      (isBgProcess cmd = 1 <-> In "&" (strtok_all (line_read p)))).
Proof.
  intros H. apply getCommand_inv in H. destruct H as [H _].
  apply parse_input_inv in H.
  pose proof (parse_tokens_flag _ _ _ _ (Nat.le_refl _) H) as [Hbg Harg].
  pose proof (parse_tokens_flag_range _ _ _ _ (Nat.le_refl _) H) as Hrange.
  simpl in Hbg, Harg, Hrange.
  assert (Hiff : isBgProcess cmd = 1 <->
                 In "&" (command_position (strtok_all (line_read p)))).
  { rewrite Hbg. split; [intros [Hf|Hin]; [discriminate|exact Hin]|auto]. }
  split; [exact Hiff|]. split; [apply Hrange; left; reflexivity|].
  split.
  - intros Hin. apply Harg in Hin. destruct Hin as [[]|Hne]. now apply Hne.
  - intros Hplain. rewrite <- (command_position_plain _ Hplain).
    exact Hiff.
Qed.

Lemma C8_background_marker_witness :
  let p := start SIG_DFL SIG_DFL ("sleep 5 &" ++ nl) in
  let cmd := mkCommand ["sleep"; "5"] 2 1 0 0 None None in
  (isBgProcess cmd = 1 <->
     In "&" (command_position (strtok_all (line_read p))))
  /\ (isBgProcess cmd = 0 \/ isBgProcess cmd = 1)
  /\ ~ In "&" (argv cmd)
  /\ ((forall t, In t (strtok_all (line_read p)) -> t <> "<" /\ t <> ">") ->
      (isBgProcess cmd = 1 <-> In "&" (strtok_all (line_read p)))).
Proof.
  intros p cmd.
  apply (C8_background_marker p
           (emit (Fgets ("sleep 5 &" ++ nl))
                 (set_stdin "" (emit (Write 1 ": ") p))) cmd).
  vm_compute. reflexivity.
Defined.

(** C8, as first stated, fails: on the line [sleep & 5] the flag is set
    although the last token is [5]. *)
Lemma C8_counterexample :
  ~ bg_iff_last_token (start SIG_DFL SIG_DFL ("sleep & 5" ++ nl)).
Proof.
  intros H.
  specialize (H (mkCommand ["sleep"; "5"] 2 1 0 0 None None)
                (emit (Fgets ("sleep & 5" ++ nl))
                      (set_stdin "" (emit (Write 1 ": ")
                         (start SIG_DFL SIG_DFL ("sleep & 5" ++ nl)))))).
  assert (Hrun : isBgProcess (mkCommand ["sleep"; "5"] 2 1 0 0 None None) = 1
                 <-> last (strtok_all (line_read
                       (start SIG_DFL SIG_DFL ("sleep & 5" ++ nl)))) "" = "&").
  { apply H. vm_compute. reflexivity. }
  destruct Hrun as [Hrun _]. specialize (Hrun eq_refl).
  vm_compute in Hrun. discriminate Hrun.
Qed.

(** A redirection marker that ends the line, after tokens none of which is
    a marker, makes the token loop undefined. *)
Lemma parse_tokens_dangling (m : string) (toks : list string) :
  m = "<" \/ m = ">" ->
  (forall t, In t toks -> t <> "<" /\ t <> ">") ->
  forall c, exists why, parse_tokens (toks ++ [m]) c = Undefined why.
Proof.
  intros Hm. induction toks as [|t rest IH]; intros Hplain c.
  - destruct Hm as [->| ->]; simpl; eexists; reflexivity.
  - simpl. destruct (Hplain t (or_introl eq_refl)) as [Hlt Hgt].
    apply String.eqb_neq in Hlt, Hgt. rewrite Hlt, Hgt.
    assert (Hrest : forall u, In u rest -> u <> "<" /\ u <> ">").
    { intros u Hu. apply Hplain. right. exact Hu. }
    destruct (String.eqb t "&"); [apply IH; exact Hrest|].
    destruct (push_arg c t) as [c1|why]; simpl.
    + apply IH. exact Hrest.
    + eexists. reflexivity.
Qed.

(** C9.  On a line whose last token is a redirection marker with no token
    after it, [getCommand] does not store a null path: it hands the null
    pointer to [strdup], and the call has no defined result. *)
Theorem C9_marker_without_path (p : Proc) (toks : list string) (m : string) :
  strtok_all (line_read p) = (toks ++ [m])%list ->
  m = "<" \/ m = ">" ->
  (forall t, In t toks -> t <> "<" /\ t <> ">") ->
  exists why, getCommand p = Undef why.
Proof.
  intros Htok Hm Hplain.
  destruct (parse_tokens_dangling m toks Hm Hplain initCommand) as [why Hw].
  exists why. unfold getCommand. simpl stdin.
  unfold line_read in Htok.
  destruct (fgets (Z.to_nat (MAX_CMD_CHARS - 1)) (stdin p)) as [input rest].
  simpl in Htok. unfold parse_input. rewrite Htok, Hw. reflexivity.
Qed.

Lemma C9_marker_without_path_witness :
  exists why, getCommand (start SIG_DFL SIG_DFL ("cat <" ++ nl)) = Undef why.
Proof.
  apply (C9_marker_without_path _ ["cat"] "<").
  - vm_compute. reflexivity.
  - left. reflexivity.
  - intros t [<-|[]]. split; discriminate.
Defined.

(** ** Wait status words *)

Section WaitStatus.

(** A boolean property checked on every integer of a range. *)
Lemma range_check (f : Z -> bool) (lo : Z) (n : nat) :
  forallb f (map (fun i => lo + Z.of_nat i) (seq 0 n)) = true ->
  forall z, lo <= z < lo + Z.of_nat n -> f z = true.
Proof.
  intros Hall z Hz. rewrite forallb_forall in Hall. apply Hall.
  apply in_map_iff. exists (Z.to_nat (z - lo)). split; [lia|].
  apply in_seq. lia.
Qed.

Lemma decode_exited (code : Z) :
  0 <= code <= 255 ->
  WIFEXITED (wait_status_of (Exited code)) = true
  /\ WEXITSTATUS (wait_status_of (Exited code)) = code.
Proof.
  intros H.
  pose (f := fun c => WIFEXITED (wait_status_of (Exited c))
                      && (WEXITSTATUS (wait_status_of (Exited c)) =? c)).
  assert (Hc : f code = true).
  { apply (range_check f 0 256); [vm_compute; reflexivity|lia]. }
  unfold f in Hc.
  apply andb_prop in Hc. destruct Hc as [H1 H2].
  split; [exact H1|]. apply Z.eqb_eq. exact H2.
Qed.

Lemma decode_signaled (sig : Z) (core : bool) :
  1 <= sig <= 126 ->
  WIFEXITED (wait_status_of (Signaled sig core)) = false
  /\ WIFSIGNALED (wait_status_of (Signaled sig core)) = true
  /\ WTERMSIG (wait_status_of (Signaled sig core)) = sig.
Proof.
  intros H.
  pose (f := fun s => negb (WIFEXITED (wait_status_of (Signaled s core)))
                      && WIFSIGNALED (wait_status_of (Signaled s core))
                      && (WTERMSIG (wait_status_of (Signaled s core)) =? s)).
  assert (Hc : f sig = true).
  { apply (range_check f 1 126);
      [unfold f; destruct core; vm_compute; reflexivity|lia]. }
  unfold f in Hc.
  apply andb_prop in Hc. destruct Hc as [Hc H3].
  apply andb_prop in Hc. destruct Hc as [H1 H2].
  repeat split.
  - apply negb_true_iff. exact H1.
  - exact H2.
  - apply Z.eqb_eq. exact H3.
Qed.

Lemma append_assoc (a b c : string) : ((a ++ b) ++ c = a ++ (b ++ c))%string.
Proof. induction a as [|x a IH]; simpl; [reflexivity|now rewrite IH]. Qed.


End WaitStatus.

(** ** Steps that leave everything but the trace *)

Section Frames.

Lemma emits_nil (p : Proc) : emits [] p = p.
Proof. destruct p. unfold emits. simpl. now rewrite app_nil_r. Qed.

Lemma emit_emits (e : event) (evs : list event) (p : Proc) :
  emit e (emits evs p) = emits (evs ++ [e]) p.
Proof. unfold emit, emits. simpl. now rewrite app_assoc. Qed.

Lemma emits_emits (evs1 evs2 : list event) (p : Proc) :
  emits evs2 (emits evs1 p) = emits (evs1 ++ evs2) p.
Proof. unfold emits. simpl. now rewrite app_assoc. Qed.

Lemma report_done_emits (pid status : Z) (p : Proc) :
  exists evs,
    report_done pid status p = emits evs p /\ forallb reaper_event evs = true.
Proof.
  unfold report_done.
  destruct (WIFEXITED status); [|destruct (WIFSIGNALED status)].
  - eexists [_]. split; reflexivity.
  - eexists [_]. split; reflexivity.
  - exists []. split; [now rewrite emits_nil|reflexivity].
Qed.

(** The reaper only waits without blocking and prints. *)
Lemma cleanUp_emits (answers : list (Z * Z)) :
  forall p, exists evs,
    cleanUp answers p = emits evs p /\ forallb reaper_event evs = true.
Proof.
  induction answers as [|[pid status] more IH]; intros p.
  - eexists [_]. split; reflexivity.
  - simpl. destruct (pid >? 0).
    + destruct (report_done_emits pid status
                  (emit (Waitpid (-1) WNOHANG pid status) p)) as (e1 & -> & H1).
      destruct (IH (emits e1 (emit (Waitpid (-1) WNOHANG pid status) p)))
        as (e2 & -> & H2).
      exists (Waitpid (-1) WNOHANG pid status :: e1 ++ e2)%list. split.
      * unfold emits, emit. simpl. now rewrite <- !app_assoc.
      * simpl. rewrite forallb_app, H1, H2. reflexivity.
    + eexists [_]. split; reflexivity.
Qed.

Lemma getCommand_emits (p q : Proc) (cmd : Command) :
  getCommand p = Returns cmd q ->
  q = set_stdin (stdin q) (emits [Write 1 ": "; Fgets (line_read p)] p).
Proof.
  intros H. apply getCommand_inv in H. destruct H as [_ ->].
  unfold emit, emits, set_stdin. simpl. now rewrite <- app_assoc.
Qed.

(** Reaping and reading a line leave the process-exit record and the
    signal dispositions alone. *)
Lemma read_step_keeps (answers : list (Z * Z)) (p q : Proc) (cmd : Command) :
  getCommand (cleanUp answers p) = Returns cmd q ->
  ENDSTATE q = ENDSTATE p /\ sigint q = sigint p /\ sigterm q = sigterm p.
Proof.
  intros H. apply getCommand_emits in H. rewrite H.
  destruct (cleanUp_emits answers p) as (evs & -> & _).
  repeat split.
Qed.

End Frames.

(** ** The built-ins *)

Section Builtins.

Lemma builtin_name (name : string) (cmd : Command) :
  builtin name cmd = true ->
  exists args, argv cmd = name :: args /\ (argc cmd =? 0) = false.
Proof.
  unfold builtin. destruct (argv cmd) as [|n args]; [discriminate|].
  intros H. apply andb_prop in H. destruct H as [H1 H2].
  apply String.eqb_eq in H2. subst n. exists args. split; [reflexivity|].
  now apply negb_true_iff.
Qed.

Lemma execCommand_status (cmd : Command) (os : os_reply) (p : Proc) :
  builtin "status" cmd = true ->
  execCommand cmd os p
  = Returns 0 (set_ENDSTATE "exit value 0"
                 (emit (Write 1 (ENDSTATE p ++ nl)) p)).
Proof.
  intros H. destruct (builtin_name _ _ H) as (args & Hargv & Hargc).
  unfold execCommand. rewrite Hargv, Hargc. reflexivity.
Qed.

Lemma execCommand_exit (cmd : Command) (os : os_reply) (p : Proc) :
  builtin "exit" cmd = true ->
  execCommand cmd os p
  = obind (kill_group_SIGTERM p) (fun _ p1 => Returns 1 p1).
Proof.
  intros H. destruct (builtin_name _ _ H) as (args & Hargv & Hargc).
  unfold execCommand. rewrite Hargv, Hargc. reflexivity.
Qed.

Lemma execCommand_external (cmd : Command) (os : os_reply) (p : Proc) :
  external cmd = true ->
  exists name args,
    argv cmd = name :: args /\ execCommand cmd os p = launch name cmd os p.
Proof.
  unfold external, execCommand.
  destruct (argv cmd) as [|name args]; [discriminate|].
  intros H. exists name, args. split; [reflexivity|].
  repeat (apply andb_prop in H; destruct H as [H ?]).
  repeat match goal with
         | Hn : negb _ = true |- _ => apply negb_true_iff in Hn; rewrite Hn
         end.
  reflexivity.
Qed.

End Builtins.

(** C3.  [status] prints the process-exit record and sets it to
    "exit value 0"; run in two successive passes of the loop, whatever the
    record held before, the second prints "exit value 0". *)
Theorem C3_status_read_reset
    (p p1 p2 : Proc) (it1 it2 : iteration) (c1 c2 : Command) :
  getCommand (cleanUp (reaped it1) p) = Returns c1 p1 ->
  builtin "status" c1 = true ->
  getCommand (cleanUp (reaped it2)
                (set_ENDSTATE "exit value 0"
                   (emit (Write 1 (ENDSTATE p ++ nl)) p1))) = Returns c2 p2 ->
  builtin "status" c2 = true ->
  execCommand c1 (reply it1) p1
  = Returns 0 (set_ENDSTATE "exit value 0"
                 (emit (Write 1 (ENDSTATE p ++ nl)) p1))
  /\ execCommand c2 (reply it2) p2
     = Returns 0 (set_ENDSTATE "exit value 0"
                    (emit (Write 1 ("exit value 0" ++ nl)) p2))
  /\ shell_loop [it1; it2] p
     = Waiting (set_ENDSTATE "exit value 0"
                  (emit (Write 1 ("exit value 0" ++ nl)) p2)).
Proof.
  intros G1 B1 G2 B2.
  destruct (read_step_keeps _ _ _ _ G1) as (E1 & _).
  destruct (read_step_keeps _ _ _ _ G2) as (E2 & _). simpl in E2.
  assert (X1 := execCommand_status c1 (reply it1) p1 B1).
  assert (X2 := execCommand_status c2 (reply it2) p2 B2).
  rewrite E1 in X1. rewrite E2 in X2.
  split; [exact X1|]. split; [exact X2|].
  simpl shell_loop. rewrite G1. simpl obind. rewrite X1. simpl obind.
  rewrite G2. simpl obind. rewrite X2. reflexivity.
Qed.

Lemma C3_status_read_reset_witness :
  exists q,
    shell_loop [mkIteration [] (mkReply 0 0 0 None 0 0 0 0 0 false);
                mkIteration [] (mkReply 0 0 0 None 0 0 0 0 0 false)]
               (set_ENDSTATE "exit value 1"
                  (start SIG_IGN SIG_DFL ("status" ++ nl ++ "status" ++ nl)))
    = Waiting q
    /\ ENDSTATE q = "exit value 0"
    /\ filter (is_write_to 1) (trace q)
       = [Write 1 ": "; Write 1 ("exit value 1" ++ nl);
          Write 1 ": "; Write 1 ("exit value 0" ++ nl)].
Proof.
  eexists. split.
  - eapply (C3_status_read_reset
              (set_ENDSTATE "exit value 1"
                 (start SIG_IGN SIG_DFL ("status" ++ nl ++ "status" ++ nl)))).
    + vm_compute. reflexivity.
    + reflexivity.
    + vm_compute. reflexivity.
    + reflexivity.
  - split; reflexivity.
Defined.

(** C2.  On [exit] the shell sends SIGTERM to its whole process group, of
    which it is a member.  Where it inherited the default disposition for
    SIGTERM, which it never changes, the signal terminates the shell inside
    [kill]: the loop is not left through its condition and the process does
    not exit with code 0.  Only a shell started with SIGTERM ignored reaches
    [return 1] and leaves [main] with code 0. *)
Theorem C2_exit_builtin
    (p p1 : Proc) (it : iteration) (script : list iteration) (c : Command) :
  getCommand (cleanUp (reaped it) p) = Returns c p1 ->
  builtin "exit" c = true ->
  shell_loop (it :: script) p
  = match sigterm p with
    | SIG_DFL => Killed SIGTERM (emit (Kill 0 SIGTERM) p1)
    | SIG_IGN => Exits 0 (emit (Kill 0 SIGTERM) p1)
    end.
Proof.
  intros G B.
  destruct (read_step_keeps _ _ _ _ G) as (_ & _ & T).
  simpl shell_loop. rewrite G. simpl obind.
  rewrite (execCommand_exit c (reply it) p1 B).
  unfold kill_group_SIGTERM. simpl sigterm. rewrite T.
  destruct (sigterm p); reflexivity.
Qed.

Lemma C2_exit_builtin_witness :
  exists q,
    main SIG_DFL SIG_DFL ("exit" ++ nl)
         [mkIteration [] (mkReply 0 0 0 None 0 0 0 0 0 false)]
    = Killed SIGTERM q.
Proof.
  eexists. unfold main, main_from.
  rewrite (C2_exit_builtin _
             (emit (Fgets ("exit" ++ nl))
                (set_stdin ""
                   (emit (Write 1 ": ")
                      (cleanUp []
                         (sigaction_SIGINT SIG_IGN
                            (start SIG_DFL SIG_DFL ("exit" ++ nl)))))))
             _ _ (mkCommand ["exit"] 1 0 0 0 None None)).
  - reflexivity.
  - vm_compute. reflexivity.
  - reflexivity.
Defined.

(** ** Launching a program: the parent *)

(** C4.  Launching a program in the foreground, the parent calls the
    blocking [waitpid] for the child that [fork] returned, does not look at
    what the call returns, and decodes the word it then finds in [status]:
    "exit value N" for the word of a normal exit with code N, "terminated
    by signal N" for the word of a death by signal N, the latter also
    printed at once.  When [waitpid] returned the pid of the child, that
    word is the status of the child.  When [waitpid] failed (it returns -1,
    as it does in a shell that inherited SIGCHLD ignored) nothing was stored
    in [status], and the record is made from the unset word all the same:
    it then says nothing of how the child ended.  Launching in the
    background, the parent only prints the identifier of the child and
    leaves the record as it was. *)
Theorem C4_parent_records (cmd : Command) (os : os_reply) (p : Proc) :
  external cmd = true ->
  0 < fork_ret os ->
  (isBgProcess cmd = 0 ->
   forall t, valid_termination t -> wait_status os = wait_status_of t ->
     execCommand cmd os p
     = Returns 0
         match t with
         | Exited _ =>
             set_ENDSTATE (describe t)
               (emit (Waitpid (fork_ret os) 0 (wait_ret os) (wait_status os))
                     (emit (Fork (fork_ret os)) p))
         | Signaled _ _ =>
             emit (Write 1 (describe t ++ nl))
               (set_ENDSTATE (describe t)
                  (emit (Waitpid (fork_ret os) 0 (wait_ret os)
                                 (wait_status os))
                        (emit (Fork (fork_ret os)) p)))
         end)
  /\ (isBgProcess cmd = 0 ->
      wait_ret os = -1 -> WIFEXITED (wait_status os) = true ->
      execCommand cmd os p
      = Returns 0
          (set_ENDSTATE ("exit value " ++ fmt_d (WEXITSTATUS (wait_status os)))
             (emit (Waitpid (fork_ret os) 0 (-1) (wait_status os))
                   (emit (Fork (fork_ret os)) p))))
  /\ (isBgProcess cmd <> 0 ->
      exists q,
        execCommand cmd os p = Returns 0 q
        /\ q = emit (Write 1 ("background pid is " ++ fmt_d (fork_ret os)
                              ++ nl))
                    (emit (Fork (fork_ret os)) p)
        /\ ENDSTATE q = ENDSTATE p).
Proof.
  intros Hext Hpid.
  destruct (execCommand_external cmd os p Hext) as (name & args & _ & ->).
  unfold launch.
  assert (H0 : (fork_ret os =? 0) = false) by (apply Z.eqb_neq; lia).
  assert (H1 : (fork_ret os >? 0) = true) by (apply Z.gtb_lt; lia).
  rewrite H0, H1. unfold parent. split; [|split].
  - intros Hfg t Hv Hst. rewrite Hfg. simpl. rewrite Hst.
    destruct t as [code|sig core].
    + destruct (decode_exited code Hv) as [-> ->]. reflexivity.
    + destruct (decode_signaled sig core Hv) as (-> & -> & ->). reflexivity.
  - intros Hfg Hret Hex. rewrite Hfg, Hret. simpl. rewrite Hex. reflexivity.
  - intros Hbg. apply Z.eqb_neq in Hbg. rewrite Hbg.
    eexists. split; [reflexivity|]. split; reflexivity.
Qed.

Lemma C4_parent_records_witness :
  execCommand (mkCommand ["false"] 1 0 0 0 None None)
              (mkReply 4242 (-1) 0 None 0 0 0 0 0 true)
              (start SIG_IGN SIG_DFL "")
  = Returns 0
      (set_ENDSTATE "exit value 0"
         (emit (Waitpid 4242 0 (-1) 0)
               (emit (Fork 4242) (start SIG_IGN SIG_DFL "")))).
Proof.
  apply (proj1 (proj2 (C4_parent_records
                         (mkCommand ["false"] 1 0 0 0 None None)
                         (mkReply 4242 (-1) 0 None 0 0 0 0 0 true)
                         (start SIG_IGN SIG_DFL "") eq_refl eq_refl)));
    reflexivity.
Defined.

(** ** Launching a program: the child *)

Section Child.

Lemma setup_step_refl (p : Proc) : setup_step p p.
Proof.
  repeat split. exists []. split; [now rewrite app_nil_r|reflexivity].
Qed.

Lemma setup_step_trans (p q r : Proc) :
  setup_step p q -> setup_step q r -> setup_step p r.
Proof.
  intros (E1 & I1 & T1 & S1 & evs1 & Tr1 & F1)
         (E2 & I2 & T2 & S2 & evs2 & Tr2 & F2).
  repeat split; try congruence.
  exists (evs1 ++ evs2)%list. split.
  - rewrite Tr2, Tr1. now rewrite app_assoc.
  - rewrite forallb_app, F1, F2. reflexivity.
Qed.

Lemma setup_step_emit (e : event) (p : Proc) :
  setup_event e = true -> setup_step p (emit e p).
Proof.
  intros H. repeat split. exists [e]. split; [reflexivity|].
  simpl. rewrite H. reflexivity.
Qed.

Lemma setup_step_fd0 (b : binding) (p : Proc) : setup_step p (set_fd0 b p).
Proof.
  repeat split. exists []. split; [simpl; now rewrite app_nil_r|reflexivity].
Qed.

Lemma setup_step_fd1 (b : binding) (p : Proc) : setup_step p (set_fd1 b p).
Proof.
  repeat split. exists []. split; [simpl; now rewrite app_nil_r|reflexivity].
Qed.

Lemma setup_step_bind (fd : Z) (b : binding) (p : Proc) :
  setup_step p (bind_fd fd b p).
Proof.
  unfold bind_fd. destruct (fd =? 0); [apply setup_step_fd0|].
  destruct (fd =? 1); [apply setup_step_fd1|apply setup_step_refl].
Qed.

Ltac setup_chain :=
  repeat first
    [ apply setup_step_refl
    | apply setup_step_fd0
    | apply setup_step_fd1
    | apply setup_step_bind
    | apply setup_step_emit; reflexivity
    | eapply setup_step_trans; [|apply setup_step_emit; reflexivity]
    | eapply setup_step_trans; [|apply setup_step_fd0]
    | eapply setup_step_trans; [|apply setup_step_fd1]
    | eapply setup_step_trans; [|apply setup_step_bind] ].

Lemma redirect_shape (wants : Z) (path : option string)
    (flags oa da target : Z) (what : string) (p q : Proc) (o : outcome unit) :
  redirect wants path flags oa da target what p = o ->
  final_proc o = Some q ->
  setup_step p q.
Proof.
  unfold redirect. intros <-.
  destruct (wants =? 1); [|simpl; intros [= <-]; apply setup_step_refl].
  destruct (sys_open path oa =? -1).
  - destruct path; simpl; [|discriminate]. intros [= <-]. setup_chain.
  - destruct (da =? -1); simpl; intros [= <-].
    + setup_chain.
    + setup_chain.
Qed.

Lemma do_execvp_shape (name : string) (args : list string) (found : bool)
    (p q : Proc) (o : outcome Z) :
  do_execvp name args found p = o ->
  final_proc o = Some q ->
  setup_step p q.
Proof.
  unfold do_execvp. intros <-.
  destruct found; simpl; intros [= <-]; setup_chain.
Qed.

Lemma redirect_cases (wants : Z) (path : option string)
    (flags oa da target : Z) (what : string) (p : Proc) :
  (exists p2, redirect wants path flags oa da target what p = Returns tt p2)
  \/ (exists p2, redirect wants path flags oa da target what p = Exits 1 p2)
  \/ (exists why, redirect wants path flags oa da target what p = Undef why).
Proof.
  unfold redirect. destruct (wants =? 1); [|left; eexists; reflexivity].
  destruct (sys_open path oa =? -1).
  - destruct path; right; [left|right]; eexists; reflexivity.
  - destruct (da =? -1); [right; left|left]; eexists; reflexivity.
Qed.

(** A child ends with a new image or with exit status 1, in a state reached
    from the one the signal policy left by setup steps only; it never
    returns to the loop. *)
Lemma child_shape (name : string) (cmd : Command) (os : os_reply)
    (p q : Proc) (o : outcome Z) :
  child name cmd os p = o ->
  final_proc o = Some q ->
  setup_step (snd (child_policy cmd p)) q
  /\ (o = Exits 1 q \/ o = Execs name (argv (fst (child_policy cmd p))) q).
Proof.
  unfold child. destruct (child_policy cmd p) as [c p1]. simpl snd. simpl fst.
  intros <-.
  destruct (redirect_cases (wantsInputR c) (inRedirFile c) O_RDONLY
              (open_in_ret os) (dup2_in_ret os) 0 "input" p1)
    as [(p2 & R1)|[(p2 & R1)|(why & R1)]]; rewrite R1; cbn [obind final_proc];
    [|intros [= <-]; split;
        [eapply redirect_shape; [exact R1|reflexivity]|left; reflexivity]
     |discriminate].
  assert (S1 : setup_step p1 p2)
    by (eapply redirect_shape; [exact R1|reflexivity]).
  destruct (redirect_cases (wantsOutputR c) (outRedirFile c)
              (Z.lor O_WRONLY (Z.lor O_CREAT O_TRUNC))
              (open_out_ret os) (dup2_out_ret os) 1 "output" p2)
    as [(p3 & R2)|[(p3 & R2)|(why & R2)]]; rewrite R2; cbn [obind final_proc];
    [|intros [= <-]; split;
        [eapply setup_step_trans;
           [exact S1|eapply redirect_shape; [exact R2|reflexivity]]
        |left; reflexivity]
     |discriminate].
  assert (S2 : setup_step p2 p3)
    by (eapply redirect_shape; [exact R2|reflexivity]).
  intros Hq. split.
  - eapply setup_step_trans; [exact S1|].
    eapply setup_step_trans; [exact S2|].
    eapply do_execvp_shape; [reflexivity|exact Hq].
  - revert Hq. unfold do_execvp.
    destruct (execvp_found os); simpl; intros [= <-]; [right|left]; reflexivity.
Qed.

(** The policy itself: one [sigaction] in the foreground, nothing in the
    background. *)
Lemma child_policy_proc (cmd : Command) (p : Proc) :
  snd (child_policy cmd p)
  = if isBgProcess cmd =? 0 then sigaction_SIGINT SIG_DFL p else p.
Proof. unfold child_policy. destruct (isBgProcess cmd =? 0); reflexivity. Qed.

End Child.

(** ** What one call of execCommand adds to the trace *)

Section Dispatch.

Lemma lines_read_app (l1 l2 : list event) :
  lines_read (l1 ++ l2) = (lines_read l1 ++ lines_read l2)%list.
Proof.
  induction l1 as [|e l1 IH]; [reflexivity|].
  destruct e; simpl; rewrite IH; reflexivity.
Qed.

Lemma setup_events_inert (evs : list event) :
  forallb setup_event evs = true ->
  lines_read evs = [] /\ filter is_sigaction evs = []
  /\ existsb is_fork0 evs = false /\ existsb is_waitpid evs = false.
Proof.
  induction evs as [|e evs IH]; [repeat split|].
  simpl. intros H. apply andb_prop in H. destruct H as [He H].
  destruct (IH H) as (L & S & F & W).
  destruct e; try discriminate He; simpl; repeat split; assumption.
Qed.

Lemma waits_ok_rev_skip (evs : list event) :
  existsb is_waitpid evs = false ->
  forall r, waits_ok_rev (rev evs ++ r) = waits_ok_rev r.
Proof.
  induction evs as [|e evs IH]; [reflexivity|].
  simpl. intros H r. apply orb_false_elim in H. destruct H as [He H].
  rewrite <- app_assoc. rewrite (IH H). simpl.
  destruct e; try reflexivity. discriminate He.
Qed.

(** The five ways through the dispatcher. *)
Lemma execCommand_cases (cmd : Command) (os : os_reply) (p : Proc) :
  (records cmd = false /\ execCommand cmd os p = Returns 0 p)
  \/ builtin "exit" cmd = true
  \/ builtin "status" cmd = true
  \/ (builtin "cd" cmd = true
      /\ exists args, execCommand cmd os p = builtin_cd args os p)
  \/ external cmd = true.
Proof.
  unfold records, builtin, external, execCommand.
  destruct (argv cmd) as [|name args]; [left; split; reflexivity|].
  destruct (argc cmd =? 0); [left; split; reflexivity|].
  destruct (starts_with_hash name) eqn:Hh.
  { left. split; [|reflexivity]. simpl.
    destruct (String.eqb_spec name "status") as [->|_]; [discriminate|].
    destruct (String.eqb_spec name "cd") as [->|_]; [discriminate|].
    reflexivity. }
  destruct (String.eqb name "exit"); [right; left; reflexivity|].
  destruct (String.eqb name "status"); [right; right; left; reflexivity|].
  destruct (String.eqb name "cd").
  - right. right. right. left. split; [reflexivity|]. exists args. reflexivity.
  - right. right. right. right. reflexivity.
Qed.

Lemma summary_plain (cmd : Command) (p : Proc) (evs : list event) :
  existsb is_waitpid evs = false ->
  existsb is_fork0 evs = false ->
  lines_read evs = [] ->
  filter is_sigaction evs = [] ->
  call_summary cmd p (emits evs p).
Proof.
  intros W F L S. split; [reflexivity|]. exists evs.
  split; [reflexivity|]. split; [exact L|]. split; [reflexivity|].
  split; [apply waits_ok_rev_skip; exact W|]. split; [intros _; exact W|].
  right. repeat split; assumption.
Qed.

Lemma summary_builtin_cd (cmd : Command) (args : list string) (os : os_reply)
    (p q : Proc) (o : outcome Z) :
  builtin "cd" cmd = true ->
  builtin_cd args os p = o -> final_proc o = Some q ->
  call_summary cmd p q.
Proof.
  intros B <-. unfold builtin_cd.
  assert (R : records cmd = true).
  { unfold records. rewrite B. now rewrite orb_true_r. }
  destruct args as [|d args']; destruct (chdir_ret os =? -1); simpl;
    intros [= <-]; (split; [reflexivity|]); eexists; simpl;
    (split; [rewrite <- ?app_assoc; reflexivity|]);
    (split; [reflexivity|]); (split; [rewrite R; discriminate|]);
    (split; [reflexivity|]); (split; [intros _; reflexivity|]);
    right; repeat split.
Qed.

Lemma summary_child (name : string) (cmd : Command) (os : os_reply)
    (p q : Proc) (o : outcome Z) :
  child name cmd os (emit (Fork 0) p) = o -> final_proc o = Some q ->
  call_summary cmd p q.
Proof.
  intros Hc Hq. destruct (child_shape _ _ _ _ _ _ Hc Hq) as [St _].
  rewrite child_policy_proc in St.
  destruct St as (E & _ & T & _ & evs & Tr & Fa).
  destruct (setup_events_inert evs Fa) as (L & S & F & W).
  destruct (isBgProcess cmd =? 0).
  - split; [rewrite T; reflexivity|].
    exists (Fork 0 :: Sigaction SIGINT SIG_DFL :: evs).
    split; [rewrite Tr; simpl; rewrite <- !app_assoc; reflexivity|].
    split; [exact L|]. split; [intros _; rewrite E; reflexivity|].
    split; [|split; [intros _; exact W|left; reflexivity]].
    intros r. simpl. rewrite <- !app_assoc. rewrite (waits_ok_rev_skip evs W).
    reflexivity.
  - split; [rewrite T; reflexivity|].
    exists (Fork 0 :: evs).
    split; [rewrite Tr; simpl; rewrite <- !app_assoc; reflexivity|].
    split; [exact L|]. split; [intros _; rewrite E; reflexivity|].
    split; [|split; [intros _; exact W|left; reflexivity]].
    intros r. simpl. rewrite <- !app_assoc. rewrite (waits_ok_rev_skip evs W).
    reflexivity.
Qed.

End Dispatch.

Section Sessions.

Lemma external_records (cmd : Command) :
  external cmd = true -> records cmd = false -> (isBgProcess cmd =? 0) = false.
Proof.
  unfold records. intros ->. intros H.
  apply orb_false_elim in H. destruct H as [_ H]. exact H.
Qed.

Lemma summary_parent (cmd : Command) (os : os_reply) (p q : Proc)
    (o : outcome Z) :
  external cmd = true -> 0 < fork_ret os ->
  parent (fork_ret os) cmd os (emit (Fork (fork_ret os)) p) = o ->
  final_proc o = Some q ->
  call_summary cmd p q.
Proof.
  intros Hext Hpid <-. unfold parent.
  assert (Hpos : (0 <? fork_ret os) = true) by (apply Z.ltb_lt; lia).
  destruct (isBgProcess cmd =? 0) eqn:Hbg.
  - assert (R : records cmd = false -> False).
    { intros R. rewrite (external_records cmd Hext R) in Hbg. discriminate. }
    destruct (WIFEXITED (wait_status os));
      [|destruct (WIFSIGNALED (wait_status os))]; simpl;
      intros [= <-]; (split; [reflexivity|]); eexists; simpl;
      (split; [rewrite <- ?app_assoc; reflexivity|]);
      (split; [reflexivity|]); (split; [intros R'; destruct (R R')|]);
      (split; [|split; [intros Hb; rewrite Hbg in Hb; discriminate Hb
                      |right; simpl; destruct (fork_ret os); try lia;
                       repeat split]]);
      intros r; simpl; rewrite Hpos, Z.eqb_refl; simpl;
      destruct (fork_ret os =? -1); reflexivity.
  - simpl. intros [= <-]. split; [reflexivity|]. eexists. simpl.
    split; [rewrite <- ?app_assoc; reflexivity|].
    split; [reflexivity|]. split; [reflexivity|].
    split; [reflexivity|]. split; [intros _; reflexivity|].
    right. simpl. destruct (fork_ret os); try lia. repeat split.
Qed.

Lemma summary_launch (name : string) (cmd : Command) (os : os_reply)
    (p q : Proc) (o : outcome Z) :
  external cmd = true ->
  launch name cmd os p = o -> final_proc o = Some q ->
  call_summary cmd p q.
Proof.
  intros Hext. unfold launch.
  destruct (fork_ret os =? 0) eqn:H0.
  - apply Z.eqb_eq in H0. rewrite H0. apply summary_child.
  - destruct (fork_ret os >? 0) eqn:H1.
    + apply summary_parent; [exact Hext|]. apply Z.gtb_lt in H1. lia.
    + intros <-. simpl. intros [= <-].
      apply Z.eqb_neq in H0.
      assert (Hneg : fork_ret os < 0).
      { destruct (Z.gtb_spec (fork_ret os) 0); [discriminate|lia]. }
      split; [reflexivity|]. eexists. simpl.
      split; [rewrite <- ?app_assoc; reflexivity|].
      split; [reflexivity|]. split; [reflexivity|].
      split; [reflexivity|]. split; [intros _; reflexivity|].
      right. simpl. destruct (fork_ret os); try lia. repeat split.
Qed.

(** Every way out of [execCommand] obeys the summary. *)
Lemma execCommand_summary (cmd : Command) (os : os_reply) (p q : Proc)
    (o : outcome Z) :
  execCommand cmd os p = o -> final_proc o = Some q ->
  call_summary cmd p q.
Proof.
  destruct (execCommand_cases cmd os p)
    as [[R X]|[B|[B|[[B [args X]]|Hext]]]].
  - rewrite X. intros <-. simpl. intros [= <-].
    rewrite <- (emits_nil p) at 2. now apply summary_plain.
  - rewrite (execCommand_exit cmd os p B). unfold kill_group_SIGTERM.
    intros <-. simpl sigterm.
    destruct (sigterm p); simpl; intros [= <-];
      apply (summary_plain cmd p [Kill 0 SIGTERM]); reflexivity.
  - rewrite (execCommand_status cmd os p B). intros <-. simpl.
    intros [= <-].
    assert (R : records cmd = true) by (unfold records; now rewrite B).
    split; [reflexivity|]. eexists. split; [reflexivity|].
    split; [reflexivity|]. split; [rewrite R; discriminate|].
    split; [reflexivity|]. split; [intros _; reflexivity|].
    right. repeat split.
  - rewrite X. apply summary_builtin_cd. exact B.
  - destruct (execCommand_external cmd os p Hext) as (name & args & _ & ->).
    apply summary_launch. exact Hext.
Qed.

(** *** An induction principle for properties of whole sessions *)

Variable Inv : Proc -> Prop.

Hypothesis Inv_cleanUp : forall answers p, Inv p -> Inv (cleanUp answers p).

Hypothesis Inv_pass :
  forall p cmd p1 os o q,
    Inv p -> getCommand p = Returns cmd p1 ->
    execCommand cmd os p1 = o -> final_proc o = Some q -> Inv q.

Lemma shell_loop_invariant (script : list iteration) :
  forall p o q,
    Inv p -> shell_loop script p = o -> final_proc o = Some q -> Inv q.
Proof.
  induction script as [|it script IH]; intros p o q Hp <-.
  - simpl. intros [= <-]. exact Hp.
  - simpl shell_loop.
    destruct (getCommand (cleanUp (reaped it) p)) as [cmd p1| | | | |] eqn:G;
      try (unfold getCommand in G;
           destruct (fgets _ _); destruct (parse_input _); discriminate G).
    + cbn [obind].
      destruct (execCommand cmd (reply it) p1)
        as [r p2|c p2|f a p2|sg p2|p2|why] eqn:X; cbn [obind].
      * assert (Hp2 : Inv p2).
        { eapply Inv_pass; [apply Inv_cleanUp, Hp|exact G|exact X|reflexivity]. }
        destruct (r =? 0).
        -- intros Hq. eapply IH; [exact Hp2|reflexivity|exact Hq].
        -- simpl. intros [= <-]. exact Hp2.
      * simpl. intros [= <-].
        eapply Inv_pass; [apply Inv_cleanUp, Hp|exact G|exact X|reflexivity].
      * simpl. intros [= <-].
        eapply Inv_pass; [apply Inv_cleanUp, Hp|exact G|exact X|reflexivity].
      * simpl. intros [= <-].
        eapply Inv_pass; [apply Inv_cleanUp, Hp|exact G|exact X|reflexivity].
      * simpl. intros [= <-].
        eapply Inv_pass; [apply Inv_cleanUp, Hp|exact G|exact X|reflexivity].
      * discriminate.
    + discriminate.
Qed.

End Sessions.

Section WholeSessions.

Lemma reaper_events_inert (evs : list event) :
  forallb reaper_event evs = true ->
  lines_read evs = [] /\ filter is_sigaction evs = []
  /\ existsb is_fork0 evs = false
  /\ forall r, waits_ok_rev (rev evs ++ r) = waits_ok_rev r.
Proof.
  induction evs as [|e evs IH]; [repeat split|].
  simpl. intros H. apply andb_prop in H. destruct H as [He H].
  destruct (IH H) as (L & S & F & W).
  assert (Hw : forall r, waits_ok_rev (e :: r) = waits_ok_rev r).
  { intros r. destruct e; try discriminate He; simpl; [reflexivity|].
    simpl in He. rewrite He. reflexivity. }
  destruct e; try discriminate He; simpl; repeat split; try assumption;
    intros r; rewrite <- app_assoc, W; apply Hw.
Qed.

Lemma getCommand_not_waiting (p q : Proc) : getCommand p <> Waiting q.
Proof.
  unfold getCommand. destruct (fgets _ _). destruct (parse_input _);
    discriminate.
Qed.

(** Only the loop itself can be found waiting: a call of [execCommand]
    returns, or ends the process. *)
Lemma execCommand_not_waiting (cmd : Command) (os : os_reply) (p q : Proc) :
  execCommand cmd os p <> Waiting q.
Proof.
  destruct (execCommand_cases cmd os p)
    as [[R X]|[B|[B|[[B [args X]]|Hext]]]].
  - rewrite X. discriminate.
  - rewrite (execCommand_exit cmd os p B). unfold kill_group_SIGTERM.
    simpl sigterm. destruct (sigterm p); discriminate.
  - rewrite (execCommand_status cmd os p B). discriminate.
  - rewrite X. unfold builtin_cd.
    destruct args; destruct (chdir_ret os =? -1); discriminate.
  - destruct (execCommand_external cmd os p Hext) as (name & args & _ & ->).
    unfold launch. destruct (fork_ret os =? 0).
    + intros Hc.
      destruct (child_shape _ _ _ _ _ _ Hc eq_refl) as [_ [H|H]];
        discriminate H.
    + destruct (fork_ret os >? 0); [|discriminate].
      unfold parent. destruct (isBgProcess cmd =? 0); [|discriminate].
      destruct (WIFEXITED (wait_status os)); [discriminate|].
      destruct (WIFSIGNALED (wait_status os)); discriminate.
Qed.

(** A session that is still at the top of the loop goes on with the passes
    that follow. *)
Lemma shell_loop_app (s s' : list iteration) :
  forall p q, shell_loop s p = Waiting q ->
              shell_loop (s ++ s') p = shell_loop s' q.
Proof.
  induction s as [|it s IH]; intros p q.
  - simpl. intros [= <-]. reflexivity.
  - simpl.
    destruct (getCommand (cleanUp (reaped it) p)) as [cmd p1| | | |w|] eqn:G;
      try discriminate;
      [|destruct (getCommand_not_waiting _ _ G)].
    cbn [obind].
    destruct (execCommand cmd (reply it) p1) as [r p2| | | |w|] eqn:X;
      try discriminate;
      [|destruct (execCommand_not_waiting _ _ _ _ X)].
    cbn [obind]. destruct (r =? 0); [apply IH|discriminate].
Qed.

(** The record is untouched as long as every line read was quiet. *)
Lemma quiet_session (int term : sighandler) (input : string)
    (script : list iteration) (o : outcome Z) (q : Proc) :
  main int term input script = o -> final_proc o = Some q ->
  Forall quiet_line (lines_read (trace q)) -> ENDSTATE q = "NULL".
Proof.
  unfold main, main_from.
  apply (shell_loop_invariant
           (fun p => Forall quiet_line (lines_read (trace p)) ->
                     ENDSTATE p = "NULL")).
  - intros answers p Hp.
    destruct (cleanUp_emits answers p) as (evs & -> & Hr).
    destruct (reaper_events_inert evs Hr) as (L & _).
    simpl. rewrite lines_read_app, L, app_nil_r. exact Hp.
  - intros p cmd p1 os o' q' Hp G X Hq.
    destruct (getCommand_inv _ _ _ G) as [Hparse _].
    apply getCommand_emits in G.
    destruct (execCommand_summary _ _ _ _ _ X Hq)
      as (_ & evs & Tr & L & E & _).
    rewrite Tr, G. simpl. rewrite !lines_read_app, L. simpl.
    rewrite app_nil_r. intros Hall. apply Forall_app in Hall.
    destruct Hall as [Hold Hnew]. inversion Hnew as [|x l Hx _]; subst.
    rewrite E; [|exact (Hx cmd Hparse)].
    rewrite G. simpl. apply Hp. exact Hold.
  - simpl. intros _. reflexivity.
Qed.


(** The shell ignores SIGINT throughout, by the one [sigaction] of its
    start. *)
Lemma session_sigint (int term : sighandler) (input : string)
    (script : list iteration) (o : outcome Z) (q : Proc) :
  main int term input script = o -> final_proc o = Some q ->
  is_child q = true
  \/ (sigint q = SIG_IGN
      /\ filter is_sigaction (trace q) = [Sigaction SIGINT SIG_IGN]).
Proof.
  unfold main, main_from.
  apply (shell_loop_invariant
           (fun p => is_child p = true
                     \/ (sigint p = SIG_IGN
                         /\ filter is_sigaction (trace p)
                            = [Sigaction SIGINT SIG_IGN]))).
  - intros answers p Hp.
    destruct (cleanUp_emits answers p) as (evs & -> & Hr).
    destruct (reaper_events_inert evs Hr) as (_ & S & F & _).
    unfold is_child in *. simpl. rewrite existsb_app, filter_app, S, F.
    rewrite orb_false_r, app_nil_r. exact Hp.
  - intros p cmd p1 os o' q' Hp G X Hq.
    apply getCommand_emits in G.
    destruct (execCommand_summary _ _ _ _ _ X Hq)
      as (_ & evs & Tr & _ & _ & _ & _ & D).
    unfold is_child in *. rewrite Tr, existsb_app, filter_app.
    destruct D as [D|(D & I & S)].
    + left. rewrite D. apply orb_true_r.
    + rewrite D, I, S, orb_false_r, app_nil_r, G. simpl.
      rewrite existsb_app, filter_app. simpl.
      rewrite orb_false_r, app_nil_r. exact Hp.
  - right. split; reflexivity.
Qed.

End WholeSessions.

(** C10.  In a session in which no line read so far was [status], [cd] or a
    foreground launch, the [status] built-in prints the text "NULL", the
    initial content of the process-exit record. *)
Theorem C10_status_initially_NULL
    (int term : sighandler) (input : string) (script : list iteration)
    (it : iteration) (p p1 : Proc) (c : Command) :
  main int term input script = Waiting p ->
  Forall quiet_line (lines_read (trace p)) ->
  getCommand (cleanUp (reaped it) p) = Returns c p1 ->
  builtin "status" c = true ->
  main int term input (script ++ [it])
  = Waiting (set_ENDSTATE "exit value 0" (emit (Write 1 ("NULL" ++ nl)) p1)).
Proof.
  intros Hrun Hquiet G B.
  assert (E : ENDSTATE p = "NULL").
  { exact (quiet_session _ _ _ _ _ _ Hrun eq_refl Hquiet). }
  destruct (read_step_keeps _ _ _ _ G) as (E1 & _).
  unfold main, main_from in *. rewrite (shell_loop_app _ _ _ _ Hrun).
  simpl shell_loop. rewrite G. cbn [obind].
  rewrite (execCommand_status c (reply it) p1 B), E1, E. reflexivity.
Qed.

Lemma C10_status_initially_NULL_witness :
  exists q,
    main SIG_DFL SIG_DFL
      (nl ++ "# note" ++ nl ++ "sleep 5 &" ++ nl ++ "status" ++ nl)
      ([mkIteration [] (mkReply 0 0 0 None 0 0 0 0 0 false);
        mkIteration [] (mkReply 0 0 0 None 0 0 0 0 0 false);
        mkIteration [] (mkReply 77 77 0 None 0 0 0 0 0 false)]
       ++ [mkIteration [] (mkReply 0 0 0 None 0 0 0 0 0 false)])
    = Waiting q
    /\ last (trace q) (Fork 0) = Write 1 ("NULL" ++ nl).
Proof.
  eexists. split.
  - eapply C10_status_initially_NULL.
    + vm_compute. reflexivity.
    + repeat constructor; intros cmd H; vm_compute in H;
        injection H as <-; reflexivity.
    + vm_compute. reflexivity.
    + reflexivity.
  - reflexivity.
Defined.

(** ** Signal policy and redirection in the child *)

Section ChildSetup.

Lemma execCommand_child (cmd : Command) (os : os_reply) (p : Proc) :
  external cmd = true -> fork_ret os = 0 ->
  exists name args,
    argv cmd = name :: args
    /\ execCommand cmd os p = child name cmd os (emit (Fork 0) p).
Proof.
  intros Hext H0.
  destruct (execCommand_external cmd os p Hext) as (name & args & Ha & ->).
  exists name, args. split; [exact Ha|]. unfold launch. rewrite H0. reflexivity.
Qed.

Lemma trace_bind_fd (fd : Z) (b : binding) (p : Proc) :
  trace (bind_fd fd b p) = trace p.
Proof.
  unfold bind_fd. destruct (fd =? 0); [reflexivity|].
  destruct (fd =? 1); reflexivity.
Qed.

Lemma fd0_bind_fd (fd : Z) (b : binding) (p : Proc) :
  fd0 (bind_fd fd b p) = if fd =? 0 then b else fd0 p.
Proof.
  unfold bind_fd. destruct (fd =? 0); [reflexivity|].
  destruct (fd =? 1); reflexivity.
Qed.

Lemma fd1_bind_fd (fd : Z) (b : binding) (p : Proc) :
  fd1 (bind_fd fd b p) = if fd =? 1 then b else fd1 p.
Proof.
  unfold bind_fd. destruct (Z.eqb_spec fd 0) as [->|_]; [reflexivity|].
  destruct (fd =? 1); reflexivity.
Qed.

(** A redirection that lets the child go on either was not requested, or
    opened a path that was given, put the file on the target and closed
    the descriptor that [open] had returned. *)
Lemma redirect_returns (wants : Z) (path : option string)
    (flags oa da target : Z) (what : string) (p q : Proc) :
  redirect wants path flags oa da target what p = Returns tt q ->
  ((wants =? 1) = false /\ q = p)
  \/ ((wants =? 1) = true
      /\ exists f,
           path = Some f
           /\ q = bind_fd oa Closed
                    (emit (Close oa)
                       (bind_fd target (ToFile f)
                          (emit (Dup2 oa target da)
                                (emit (Open (Some f) flags oa) p))))).
Proof.
  unfold redirect. destruct (wants =? 1); [|intros [= <-]; left; split; reflexivity].
  destruct path as [f|]; simpl sys_open.
  - destruct (oa =? -1); [discriminate|].
    destruct (da =? -1); [discriminate|].
    intros [= <-]. right. split; [reflexivity|]. exists f. split; reflexivity.
  - simpl. discriminate.
Qed.

(** The bindings of the standard descriptors with which the new image
    starts: the file of the redirection, unless a [close] of the
    redirection code closed the descriptor again. *)
Lemma child_exec_bindings (name : string) (cmd : Command) (os : os_reply)
    (p q : Proc) (f : string) (a : list string) :
  child name cmd os p = Execs f a q ->
  forall c p1, child_policy cmd p = (c, p1) ->
  (wantsInputR c = 1 ->
   exists path,
     inRedirFile c = Some path
     /\ fd0 q = (if (open_in_ret os =? 0)
                    || ((wantsOutputR c =? 1) && (open_out_ret os =? 0))
                 then Closed else ToFile path)
     /\ In (Open (Some path) O_RDONLY (open_in_ret os)) (trace q))
  /\ (wantsOutputR c = 1 ->
      exists path,
        outRedirFile c = Some path
        /\ fd1 q = (if open_out_ret os =? 1 then Closed else ToFile path)
        /\ In (Open (Some path)
                    (Z.lor O_WRONLY (Z.lor O_CREAT O_TRUNC))
                    (open_out_ret os)) (trace q)).
Proof.
  unfold child. intros H c p1 Hpol. rewrite Hpol in H.
  destruct (redirect_cases (wantsInputR c) (inRedirFile c) O_RDONLY
              (open_in_ret os) (dup2_in_ret os) 0 "input" p1)
    as [(p2 & R1)|[(p2 & R1)|(why & R1)]]; rewrite R1 in H;
    cbn [obind] in H; try discriminate H.
  destruct (redirect_cases (wantsOutputR c) (outRedirFile c)
              (Z.lor O_WRONLY (Z.lor O_CREAT O_TRUNC))
              (open_out_ret os) (dup2_out_ret os) 1 "output" p2)
    as [(p3 & R2)|[(p3 & R2)|(why & R2)]]; rewrite R2 in H;
    cbn [obind] in H; try discriminate H.
  unfold do_execvp in H. destruct (execvp_found os); [|discriminate H].
  injection H as _ _ <-.
  apply redirect_returns in R1, R2. split.
  - intros Hin. rewrite Hin in R1. simpl in R1.
    destruct R1 as [[R1 _]|[_ (path & Hp & ->)]]; [discriminate R1|].
    exists path. split; [exact Hp|].
    destruct R2 as [[-> ->]|[-> (path2 & _ & ->)]];
      cbn [emit fd0 trace andb];
      rewrite ?fd0_bind_fd, ?trace_bind_fd; cbn [emit fd0 trace];
      rewrite ?fd0_bind_fd, ?trace_bind_fd; cbn [emit fd0 trace];
      rewrite ?fd0_bind_fd, ?trace_bind_fd; cbn [emit fd0 trace].
    + rewrite orb_false_r. simpl (0 =? 0). cbv iota. split; [reflexivity|].
      repeat (apply in_or_app; first [right; left; reflexivity|left]).
    + simpl (0 =? 0). cbv iota.
      split; [destruct (open_in_ret os =? 0);
              destruct (open_out_ret os =? 0); reflexivity|].
      repeat (apply in_or_app; first [right; left; reflexivity|left]).
  - intros Hout. rewrite Hout in R2. simpl in R2.
    destruct R2 as [[R2 _]|[_ (path & Hp & ->)]]; [discriminate R2|].
    exists path. split; [exact Hp|].
    cbn [emit fd1 trace].
    rewrite ?fd1_bind_fd, ?trace_bind_fd; cbn [emit fd1 trace];
      rewrite ?fd1_bind_fd, ?trace_bind_fd; cbn [emit fd1 trace].
    simpl (1 =? 1). cbv iota. split; [reflexivity|].
    repeat (apply in_or_app; first [right; left; reflexivity|left]).
Qed.

End ChildSetup.

(** C1.  The shell sets SIGINT to be ignored once, when it starts, and in
    every state of a session the shell process still ignores it: an
    interrupt leaves it alive.  The child forked for a foreground command
    first of all, before any redirection or [execvp], restores the default
    disposition, so that an interrupt terminates it; the child forked for a
    background command makes no [sigaction] call and keeps the inherited
    disposition, so that an interrupt leaves it alive. *)
Theorem C1_signal_policy :
  (forall int term input script o q,
      main int term input script = o -> final_proc o = Some q ->
      is_child q = false ->
      sigint q = SIG_IGN
      /\ filter is_sigaction (trace q) = [Sigaction SIGINT SIG_IGN]
      /\ deliver_SIGINT q = Returns tt q)
  /\ (forall cmd os p o q,
        external cmd = true -> fork_ret os = 0 -> sigint p = SIG_IGN ->
        execCommand cmd os p = o -> final_proc o = Some q ->
        exists evs,
          forallb setup_event evs = true
          /\ if isBgProcess cmd =? 0 then
               trace q = (trace p ++ Fork 0 :: Sigaction SIGINT SIG_DFL
                                            :: evs)%list
               /\ sigint q = SIG_DFL
               /\ deliver_SIGINT q = Killed SIGINT q
             else
               trace q = (trace p ++ Fork 0 :: evs)%list
               /\ sigint q = SIG_IGN
               /\ deliver_SIGINT q = Returns tt q).
Proof.
  split.
  - intros int term input script o q Hrun Hq Hshell.
    destruct (session_sigint _ _ _ _ _ _ Hrun Hq) as [Hc|[Hi Hs]].
    + rewrite Hc in Hshell. discriminate Hshell.
    + repeat split; [exact Hi|exact Hs|].
      unfold deliver_SIGINT. rewrite Hi. reflexivity.
  - intros cmd os p o q Hext H0 Hign X Hq.
    destruct (execCommand_child cmd os p Hext H0) as (name & args & _ & Hc).
    rewrite Hc in X.
    destruct (child_shape _ _ _ _ _ _ X Hq) as [St _].
    rewrite child_policy_proc in St.
    destruct St as (_ & I & _ & _ & evs & Tr & Fa).
    exists evs. split; [exact Fa|].
    destruct (isBgProcess cmd =? 0); simpl in I, Tr.
    + repeat split.
      * rewrite Tr, <- !app_assoc. reflexivity.
      * exact I.
      * unfold deliver_SIGINT. rewrite I. reflexivity.
    + rewrite Hign in I. repeat split.
      * rewrite Tr, <- !app_assoc. reflexivity.
      * exact I.
      * unfold deliver_SIGINT. rewrite I. reflexivity.
Qed.

Lemma C1_signal_policy_witness :
  exists evs,
    forallb setup_event evs = true
    /\ trace (mkProc "NULL" SIG_DFL SIG_DFL SIG_DFL Inherited Inherited ""
                [Sigaction SIGINT SIG_IGN; Fork 0; Sigaction SIGINT SIG_DFL;
                 Execvp "ls" ["ls"] true])
       = ([Sigaction SIGINT SIG_IGN]
          ++ Fork 0 :: Sigaction SIGINT SIG_DFL :: evs)%list
    /\ sigint (mkProc "NULL" SIG_DFL SIG_DFL SIG_DFL Inherited Inherited ""
                 [Sigaction SIGINT SIG_IGN; Fork 0; Sigaction SIGINT SIG_DFL;
                  Execvp "ls" ["ls"] true]) = SIG_DFL
    /\ deliver_SIGINT
         (mkProc "NULL" SIG_DFL SIG_DFL SIG_DFL Inherited Inherited ""
            [Sigaction SIGINT SIG_IGN; Fork 0; Sigaction SIGINT SIG_DFL;
             Execvp "ls" ["ls"] true])
       = Killed SIGINT
           (mkProc "NULL" SIG_DFL SIG_DFL SIG_DFL Inherited Inherited ""
              [Sigaction SIGINT SIG_IGN; Fork 0; Sigaction SIGINT SIG_DFL;
               Execvp "ls" ["ls"] true]).
Proof.
  exact (proj2 C1_signal_policy
           (mkCommand ["ls"] 1 0 0 0 None None)
           (mkReply 0 0 0 None 0 0 0 0 0 true)
           (sigaction_SIGINT SIG_IGN (start SIG_DFL SIG_DFL ""))
           _ _ eq_refl eq_refl eq_refl eq_refl eq_refl).
Defined.

(** C6.  In the child of a background command a redirection that was
    requested with no path gets the path [/dev/null] before the file is
    opened; nothing else of the command changes, and a foreground command is
    left as it is.  A background child that asked for output redirection
    with no path therefore opens [/dev/null] and starts its program with
    standard output bound to it, or closed when [open] returned
    descriptor 1 itself and the [close] after [dup2] closed it again: in
    neither case can the program write to the terminal.  The same holds of
    standard input, and the program is started whenever the open, the
    [dup2] and the [execvp] succeed. *)
Theorem C6_null_device :
  (forall cmd p,
      isBgProcess cmd <> 0 ->
      inRedirFile (fst (child_policy cmd p))
      = match inRedirFile cmd with
        | None => if wantsInputR cmd =? 1 then Some DEVNULL else None
        | Some f => Some f
        end
      /\ outRedirFile (fst (child_policy cmd p))
         = match outRedirFile cmd with
           | None => if wantsOutputR cmd =? 1 then Some DEVNULL else None
           | Some f => Some f
           end
      /\ argv (fst (child_policy cmd p)) = argv cmd
      /\ wantsInputR (fst (child_policy cmd p)) = wantsInputR cmd
      /\ wantsOutputR (fst (child_policy cmd p)) = wantsOutputR cmd)
  /\ (forall cmd p, isBgProcess cmd = 0 -> fst (child_policy cmd p) = cmd)
  /\ (forall name cmd os p f a q,
        isBgProcess cmd <> 0 ->
        child name cmd os p = Execs f a q ->
        (wantsInputR cmd = 1 -> inRedirFile cmd = None ->
         fd0 q = (if (open_in_ret os =? 0)
                     || ((wantsOutputR cmd =? 1) && (open_out_ret os =? 0))
                  then Closed else ToFile DEVNULL)
         /\ In (Open (Some DEVNULL) O_RDONLY (open_in_ret os)) (trace q))
        /\ (wantsOutputR cmd = 1 -> outRedirFile cmd = None ->
            fd1 q = (if open_out_ret os =? 1 then Closed
                     else ToFile DEVNULL)
            /\ In (Open (Some DEVNULL)
                        (Z.lor O_WRONLY (Z.lor O_CREAT O_TRUNC))
                        (open_out_ret os)) (trace q)))
  /\ (forall name cmd os p,
        isBgProcess cmd <> 0 ->
        wantsInputR cmd = 0 -> wantsOutputR cmd = 1 ->
        outRedirFile cmd = None ->
        open_out_ret os <> -1 -> dup2_out_ret os <> -1 ->
        execvp_found os = true ->
        exists q, child name cmd os p = Execs name (argv cmd) q
                  /\ fd1 q = (if open_out_ret os =? 1 then Closed
                              else ToFile DEVNULL)
                  /\ In (Open (Some DEVNULL)
                              (Z.lor O_WRONLY (Z.lor O_CREAT O_TRUNC))
                              (open_out_ret os)) (trace q)).
Proof.
  assert (Hpol : forall cmd p,
             isBgProcess cmd <> 0 ->
             inRedirFile (fst (child_policy cmd p))
             = match inRedirFile cmd with
               | None => if wantsInputR cmd =? 1 then Some DEVNULL else None
               | Some f => Some f
               end
             /\ outRedirFile (fst (child_policy cmd p))
                = match outRedirFile cmd with
                  | None => if wantsOutputR cmd =? 1 then Some DEVNULL
                            else None
                  | Some f => Some f
                  end
             /\ argv (fst (child_policy cmd p)) = argv cmd
             /\ wantsInputR (fst (child_policy cmd p)) = wantsInputR cmd
             /\ wantsOutputR (fst (child_policy cmd p)) = wantsOutputR cmd).
  { intros cmd p Hbg. apply Z.eqb_neq in Hbg. unfold child_policy.
    rewrite Hbg. destruct cmd as [av ac bg wi wo fi fo]. simpl.
    destruct fi, fo; simpl; destruct (wi =? 1); simpl; destruct (wo =? 1);
      simpl; repeat split. }
  assert (Hbind : forall name cmd os p f a q,
             isBgProcess cmd <> 0 ->
             child name cmd os p = Execs f a q ->
             (wantsInputR cmd = 1 -> inRedirFile cmd = None ->
              fd0 q = (if (open_in_ret os =? 0)
                          || ((wantsOutputR cmd =? 1)
                              && (open_out_ret os =? 0))
                       then Closed else ToFile DEVNULL)
              /\ In (Open (Some DEVNULL) O_RDONLY (open_in_ret os)) (trace q))
             /\ (wantsOutputR cmd = 1 -> outRedirFile cmd = None ->
                 fd1 q = (if open_out_ret os =? 1 then Closed
                          else ToFile DEVNULL)
                 /\ In (Open (Some DEVNULL)
                             (Z.lor O_WRONLY (Z.lor O_CREAT O_TRUNC))
                             (open_out_ret os)) (trace q))).
  { intros name cmd os p f a q Hbg X.
    destruct (Hpol cmd p Hbg) as (Hi & Ho & _ & Hwi & Hwo).
    destruct (child_exec_bindings _ _ _ _ _ _ _ X _ _
                (surjective_pairing (child_policy cmd p))) as [Bin Bout].
    split.
    - intros Hw Hnone. rewrite Hwi, Hwo in Bin.
      destruct (Bin Hw) as (path & Hp & Hfd & Hopen).
      rewrite Hi, Hnone, Hw in Hp. simpl in Hp. injection Hp as <-.
      split; assumption.
    - intros Hw Hnone. rewrite Hwo in Bout.
      destruct (Bout Hw) as (path & Hp & Hfd & Hopen).
      rewrite Ho, Hnone, Hw in Hp. simpl in Hp. injection Hp as <-.
      split; assumption. }
  split; [exact Hpol|]. split; [|split; [exact Hbind|]].
  - intros cmd p Hfg. unfold child_policy. rewrite Hfg. reflexivity.
  - intros name cmd os p Hbg Hwi Hwo Hnone Hopen Hdup Hfound.
    assert (X : exists q, child name cmd os p = Execs name (argv cmd) q).
    { apply Z.eqb_neq in Hbg, Hopen, Hdup.
      unfold child, child_policy. rewrite Hbg.
      destruct cmd as [av ac bg wi wo fi fo]. simpl in *. subst wi wo fo.
      destruct fi; simpl; unfold redirect; simpl; rewrite Hopen, Hdup; simpl;
        unfold do_execvp; rewrite Hfound; eexists; reflexivity. }
    destruct X as [q X]. exists q. split; [exact X|].
    exact (proj2 (Hbind _ _ _ _ _ _ _ Hbg X) Hwo Hnone).
Qed.

Lemma C6_null_device_witness :
  exists q,
    child "sleep" (mkCommand ["sleep"; "5"] 2 1 0 1 None None)
          (mkReply 0 0 0 None 0 0 3 0 1 true)
          (emit (Fork 0) (start SIG_IGN SIG_DFL ""))
    = Execs "sleep" ["sleep"; "5"] q
    /\ fd1 q = ToFile DEVNULL
    /\ In (Open (Some DEVNULL) (Z.lor O_WRONLY (Z.lor O_CREAT O_TRUNC)) 3)
          (trace q).
Proof.
  apply (proj2 (proj2 (proj2 C6_null_device))
           "sleep" (mkCommand ["sleep"; "5"] 2 1 0 1 None None)
           (mkReply 0 0 0 None 0 0 3 0 1 true)
           (emit (Fork 0) (start SIG_IGN SIG_DFL "")));
    simpl; first [reflexivity | discriminate | lia].
Defined.

(** C7.  A failure while the child sets itself up ends the child, not the
    shell.  When the input file cannot be opened the child writes "cannot
    open <path> for input" to standard error and exits with status 1; when
    the output file cannot be opened, "cannot open <path> for output" and
    status 1; when the program is not found, "<name>: no such file or
    directory" and status 1.  The shell, which sees a positive result of
    [fork], returns from [execCommand] with 0 and takes the next pass of its
    loop; after a foreground child that exited with status 1 its record is
    "exit value 1". *)
Theorem C7_child_setup_errors :
  (forall name cmd os p c p1 f,
      child_policy cmd p = (c, p1) ->
      wantsInputR c = 1 -> inRedirFile c = Some f -> open_in_ret os = -1 ->
      child name cmd os p
      = Exits 1 (emit (Write 2 ("cannot open " ++ f ++ " for input" ++ nl))
                      (emit (Open (Some f) O_RDONLY (-1)) p1)))
  /\ (forall name cmd os p c p1 p2 f,
        child_policy cmd p = (c, p1) ->
        redirect (wantsInputR c) (inRedirFile c) O_RDONLY
                 (open_in_ret os) (dup2_in_ret os) 0 "input" p1
        = Returns tt p2 ->
        wantsOutputR c = 1 -> outRedirFile c = Some f ->
        open_out_ret os = -1 ->
        child name cmd os p
        = Exits 1 (emit (Write 2 ("cannot open " ++ f ++ " for output" ++ nl))
                        (emit (Open (Some f)
                                    (Z.lor O_WRONLY (Z.lor O_CREAT O_TRUNC))
                                    (-1)) p2)))
  /\ (forall name cmd os p c p1 p2 p3,
        child_policy cmd p = (c, p1) ->
        redirect (wantsInputR c) (inRedirFile c) O_RDONLY
                 (open_in_ret os) (dup2_in_ret os) 0 "input" p1
        = Returns tt p2 ->
        redirect (wantsOutputR c) (outRedirFile c)
                 (Z.lor O_WRONLY (Z.lor O_CREAT O_TRUNC))
                 (open_out_ret os) (dup2_out_ret os) 1 "output" p2
        = Returns tt p3 ->
        execvp_found os = false ->
        child name cmd os p
        = Exits 1 (emit (Write 2 (name ++ ": no such file or directory" ++ nl))
                        (emit (Execvp name (argv c) false) p3)))
  /\ (forall cmd os p,
        external cmd = true -> fork_ret os = 0 ->
        exists name args,
          argv cmd = name :: args
          /\ execCommand cmd os p = child name cmd os (emit (Fork 0) p))
  /\ (forall cmd it script p p1,
        getCommand (cleanUp (reaped it) p) = Returns cmd p1 ->
        external cmd = true -> 0 < fork_ret (reply it) ->
        exists q,
          execCommand cmd (reply it) p1 = Returns 0 q
          /\ shell_loop (it :: script) p = shell_loop script q
          /\ (isBgProcess cmd = 0 ->
              wait_status (reply it) = wait_status_of (Exited 1) ->
              ENDSTATE q = "exit value 1")).
Proof.
  split; [|split; [|split; [|split]]].
  - intros name cmd os p c p1 f Hpol Hw Hf Hopen.
    unfold child. rewrite Hpol. unfold redirect.
    rewrite Hw, Hf, Hopen. reflexivity.
  - intros name cmd os p c p1 p2 f Hpol R1 Hw Hf Hopen.
    unfold child. rewrite Hpol, R1. cbn [obind]. unfold redirect.
    rewrite Hw, Hf, Hopen. reflexivity.
  - intros name cmd os p c p1 p2 p3 Hpol R1 R2 Hfound.
    unfold child. rewrite Hpol, R1. cbn [obind]. rewrite R2. cbn [obind].
    unfold do_execvp. rewrite Hfound. reflexivity.
  - exact execCommand_child.
  - intros cmd it script p p1 G Hext Hpid.
    assert (X : exists q,
               execCommand cmd (reply it) p1 = Returns 0 q
               /\ (isBgProcess cmd = 0 ->
                   wait_status (reply it) = wait_status_of (Exited 1) ->
                   ENDSTATE q = "exit value 1")).
    { destruct (execCommand_external cmd (reply it) p1 Hext)
        as (name & args & _ & ->).
      unfold launch.
      assert (H0 : (fork_ret (reply it) =? 0) = false)
        by (apply Z.eqb_neq; lia).
      assert (H1 : (fork_ret (reply it) >? 0) = true)
        by (apply Z.gtb_lt; lia).
      rewrite H0, H1. unfold parent.
      destruct (isBgProcess cmd =? 0) eqn:Hbg.
      - destruct (WIFEXITED (wait_status (reply it))) eqn:He;
          [|destruct (WIFSIGNALED (wait_status (reply it)))];
          eexists; (split; [reflexivity|]); intros _ Hst;
          rewrite Hst in *; try discriminate He.
        reflexivity.
      - eexists. split; [reflexivity|]. intros Hfg. rewrite Hfg in Hbg.
        discriminate Hbg. }
    destruct X as (q & X & Hrec). exists q.
    split; [exact X|]. split; [|exact Hrec].
    simpl shell_loop. rewrite G. cbn [obind]. rewrite X. reflexivity.
Qed.

Lemma C7_child_setup_errors_witness :
  child "cat" (mkCommand ["cat"] 1 0 1 0 (Some "missing") None)
        (mkReply 0 0 0 None 0 (-1) 0 0 0 true)
        (emit (Fork 0) (start SIG_IGN SIG_DFL ""))
  = Exits 1 (emit (Write 2 ("cannot open missing for input" ++ nl))
                  (emit (Open (Some "missing") O_RDONLY (-1))
                        (sigaction_SIGINT SIG_DFL
                           (emit (Fork 0) (start SIG_IGN SIG_DFL ""))))).
Proof.
  apply (proj1 C7_child_setup_errors
           "cat" (mkCommand ["cat"] 1 0 1 0 (Some "missing") None)
           (mkReply 0 0 0 None 0 (-1) 0 0 0 true)
           (emit (Fork 0) (start SIG_IGN SIG_DFL ""))
           (mkCommand ["cat"] 1 0 1 0 (Some "missing") None));
    reflexivity.
Defined.

(** * Further properties of the code *)

(** ** Reading and splitting a line *)

Section Lines.

Lemma no_delim_app (a b : string) :
  no_delim (a ++ b) = no_delim a && no_delim b.
Proof.
  induction a as [|c a IH]; simpl; [reflexivity|].
  rewrite IH. now rewrite andb_assoc.
Qed.

Lemma append_nil_r (a : string) : (a ++ "")%string = a.
Proof. induction a as [|c a IH]; simpl; [reflexivity|now rewrite IH]. Qed.

Lemma no_nul_app (a b : string) :
  no_nul (a ++ b) = no_nul a && no_nul b.
Proof.
  induction a as [|c a IH]; simpl; [reflexivity|].
  rewrite IH. now rewrite andb_assoc.
Qed.

Lemma strtok_from_words (buf : string) :
  forall cur,
    no_delim cur = true -> no_nul cur = true ->
    Forall word (strtok_from buf cur).
Proof.
  induction buf as [|c rest IH]; intros cur Hcur Hnul; simpl.
  - destruct cur; constructor; [|constructor].
    split; [discriminate|split; assumption].
  - destruct (Ascii.eqb c "000") eqn:Hz.
    + destruct cur; constructor; [|constructor].
      split; [discriminate|split; assumption].
    + destruct (is_delim c) eqn:Hd.
      * destruct cur; [apply IH; reflexivity|].
        constructor; [split; [discriminate|split; assumption]
                     |apply IH; reflexivity].
      * apply IH.
        -- rewrite no_delim_app, Hcur. simpl. now rewrite Hd.
        -- rewrite no_nul_app, Hnul. simpl. now rewrite Hz.
Qed.

(** A run of characters that are neither delimiters nor NUL is scanned into
    the current token. *)
Lemma strtok_from_run (t : string) :
  forall rest cur,
    no_delim t = true -> no_nul t = true ->
    strtok_from (t ++ rest) cur = strtok_from rest (cur ++ t).
Proof.
  induction t as [|c t IH]; intros rest cur H N; simpl.
  - now rewrite append_nil_r.
  - simpl in H, N. apply andb_prop in H. destruct H as [Hc Ht].
    apply andb_prop in N. destruct N as [Nc Nt].
    apply negb_true_iff in Hc, Nc.
    rewrite Nc, Hc, (IH _ _ Ht Nt), append_assoc. reflexivity.
Qed.

Lemma fgets_eof (n : nat) : fgets n "" = ("", "").
Proof. destruct n; reflexivity. Qed.

End Lines.

(** X1.  Every token that the [strtok] calls of [getCommand] return is a
    word: it is not empty and holds no space, tab, newline or NUL. *)
Theorem X1_tokens_are_words (input : string) :
  Forall word (strtok_all input).
Proof. apply strtok_from_words; reflexivity. Qed.

(** X2.  Splitting inverts joining: a line made of words (non-empty, with
    no space, tab, newline or NUL) separated by single spaces and ended by a
    newline is split into exactly these words. *)
Theorem X2_tokens_of_joined_words (toks : list string) :
  Forall word toks ->
  strtok_all (String.concat " " toks ++ nl) = toks.
Proof.
  unfold strtok_all. induction toks as [|t rest IH]; intros H.
  - reflexivity.
  - inversion H as [|x l (Hne & Hnd & Hnn) Hrest]; subst.
    destruct rest as [|t2 rest].
    + simpl String.concat. rewrite (strtok_from_run t _ _ Hnd Hnn). simpl.
      destruct t; [contradiction|reflexivity].
    + change (String.concat " " (t :: t2 :: rest))
        with (t ++ " " ++ String.concat " " (t2 :: rest))%string.
      rewrite append_assoc, (strtok_from_run t _ _ Hnd Hnn). simpl.
      destruct t; [contradiction|]. f_equal. apply IH. exact Hrest.
Qed.

Lemma X2_tokens_of_joined_words_witness :
  strtok_all (String.concat " " ["ls"; "-l"; "/tmp"] ++ nl)
  = ["ls"; "-l"; "/tmp"].
Proof.
  apply (X2_tokens_of_joined_words ["ls"; "-l"; "/tmp"]).
  repeat constructor; discriminate.
Defined.

(** [fgets] takes exactly one line when it fits. *)
Lemma fgets_one_line (n : nat) (l rest : string) :
  newline_free l = true ->
  (String.length l < n)%nat ->
  fgets n (l ++ nl ++ rest) = ((l ++ nl)%string, rest).
Proof.
  revert n. induction l as [|c l IH]; intros n Hl Hn.
  - destruct n; [simpl in Hn; lia|]. reflexivity.
  - destruct n; [simpl in Hn; lia|]. simpl in Hl, Hn |- *.
    apply andb_prop in Hl. destruct Hl as [Hc Hl].
    apply negb_true_iff in Hc. rewrite Hc, IH; [reflexivity|exact Hl|lia].
Qed.

(** X3.  One call of [getCommand] consumes exactly one line: when the
    input starts with a line of fewer than 2047 characters and its newline,
    the command parsed is that of this line and the input left for the next
    call is what follows the newline. *)
Theorem X3_one_line_per_call
    (p q : Proc) (l rest : string) (cmd : Command) :
  stdin p = (l ++ nl ++ rest)%string ->
  newline_free l = true ->
  (String.length l < Z.to_nat (MAX_CMD_CHARS - 1))%nat ->
  getCommand p = Returns cmd q ->
  line_read p = (l ++ nl)%string
  /\ parse_input (l ++ nl) = Ok cmd
  /\ stdin q = rest.
Proof.
  intros Hs Hl Hlen G.
  destruct (getCommand_inv _ _ _ G) as [P ->].
  unfold line_read in *. rewrite Hs, (fgets_one_line _ _ _ Hl Hlen) in *.
  repeat split. exact P.
Qed.

Lemma X3_one_line_per_call_witness :
  let p := start SIG_DFL SIG_DFL ("status" ++ nl ++ "exit" ++ nl) in
  line_read p = ("status" ++ nl)%string
  /\ parse_input ("status" ++ nl)
     = Ok (mkCommand ["status"] 1 0 0 0 None None)
  /\ stdin (emit (Fgets ("status" ++ nl))
              (set_stdin ("exit" ++ nl) (emit (Write 1 ": ") p)))
     = ("exit" ++ nl)%string.
Proof.
  intros p.
  apply (X3_one_line_per_call p _ "status" ("exit" ++ nl)
           (mkCommand ["status"] 1 0 0 0 None None)).
  - reflexivity.
  - reflexivity.
  - vm_compute. lia.
  - vm_compute. reflexivity.
Defined.

(** X4.  A line longer than the buffer is cut: when the first 2047
    characters of the input hold no newline, [getCommand] parses just these
    and leaves the remainder of the line as input of the next command. *)
Theorem X4_long_line_is_cut (p q : Proc) (l1 l2 : string) (cmd : Command) :
  stdin p = (l1 ++ l2)%string ->
  newline_free l1 = true ->
  String.length l1 = Z.to_nat (MAX_CMD_CHARS - 1) ->
  getCommand p = Returns cmd q ->
  line_read p = l1 /\ stdin q = l2.
Proof.
  intros Hs Hl Hlen G.
  assert (F : forall n l, newline_free l = true -> String.length l = n ->
                          fgets n (l ++ l2) = (l, l2)).
  { induction n as [|n IH]; intros l Hf Hn.
    - destruct l; [|discriminate Hn]. destruct l2; reflexivity.
    - destruct l as [|c l]; [discriminate Hn|]. simpl in Hf, Hn |- *.
      apply andb_prop in Hf. destruct Hf as [Hc Hf].
      apply negb_true_iff in Hc. rewrite Hc, IH; [reflexivity|exact Hf|lia]. }
  destruct (getCommand_inv _ _ _ G) as [_ ->].
  unfold line_read. rewrite Hs, (F _ _ Hl Hlen). split; reflexivity.
Qed.

Lemma X4_long_line_is_cut_witness :
  let l1 := string_of_list_ascii (repeat "a"%char 2047) in
  let p := start SIG_DFL SIG_DFL (l1 ++ "b" ++ nl) in
  line_read p = l1
  /\ stdin (emit (Fgets l1) (set_stdin ("b" ++ nl) (emit (Write 1 ": ") p)))
     = ("b" ++ nl)%string.
Proof.
  intros l1 p.
  apply (X4_long_line_is_cut p _ l1 ("b" ++ nl)
           (mkCommand [l1] 1 0 0 0 None None));
    vm_compute; reflexivity.
Defined.

(** ** The descriptor that the parser builds *)

Section Descriptor.

Lemma parse_tokens_well_formed (U : list string) (n : nat) :
  forall toks c c',
    (List.length toks <= n)%nat ->
    parse_tokens toks c = Ok c' ->
    (forall t, In t toks -> In t U) ->
    well_formed U c -> well_formed U c'.
Proof.
  induction n as [|n IH]; intros toks c c' Hlen.
  - destruct toks; [|simpl in Hlen; lia].
    simpl. intros H. injection H as <-. auto.
  - destruct toks as [|t rest].
    { simpl. intros H. injection H as <-. auto. }
    simpl in Hlen. simpl parse_tokens.
    destruct (String.eqb t "<") eqn:Elt.
    { destruct rest as [|p rest']; [discriminate|].
      simpl. intros H HU (A & B & I & O & Ar & Pi & Po).
      eapply IH; [|exact H| |].
      - simpl in Hlen. lia.
      - intros u Hu. apply HU. right. right. exact Hu.
      - unfold well_formed. simpl. repeat split; try assumption.
        + left. split; [reflexivity|discriminate].
        + apply Ar. assumption.
        + apply Ar. assumption.
        + intros f [= <-]. apply HU. right. left. reflexivity. }
    destruct (String.eqb t ">") eqn:Egt.
    { destruct rest as [|p rest']; [discriminate|].
      simpl. intros H HU (A & B & I & O & Ar & Pi & Po).
      eapply IH; [|exact H| |].
      - simpl in Hlen. lia.
      - intros u Hu. apply HU. right. right. exact Hu.
      - unfold well_formed. simpl. repeat split; try assumption.
        + left. split; [reflexivity|discriminate].
        + apply Ar. assumption.
        + apply Ar. assumption.
        + intros f [= <-]. apply HU. right. left. reflexivity. }
    destruct (String.eqb t "&") eqn:Eamp.
    { intros H HU (A & B & I & O & Ar & Pi & Po).
      eapply IH; [|exact H| |].
      - lia.
      - intros u Hu. apply HU. right. exact Hu.
      - unfold well_formed. simpl. repeat split; try assumption.
        + right. reflexivity.
        + apply Ar. assumption.
        + apply Ar. assumption. }
    unfold push_arg. destruct (argc c <? MAX_CMD_ARGS); [|discriminate].
    simpl. intros H HU (A & B & I & O & Ar & Pi & Po).
    eapply IH; [|exact H| |].
    + lia.
    + intros u Hu. apply HU. right. exact Hu.
    + unfold well_formed. simpl. repeat split; try assumption.
      * rewrite length_app. simpl. lia.
      * apply in_app_or in H0. destruct H0 as [Ha|[<-|[]]];
          [apply Ar; exact Ha|apply HU; left; reflexivity].
      * apply in_app_or in H0. destruct H0 as [Ha|[<-|[]]];
          [apply Ar; exact Ha|].
        unfold is_marker. rewrite Elt, Egt, Eamp. reflexivity.
Qed.

(** Tokens that are not markers are stored one after the other, as long as
    there is room in the array. *)
Lemma parse_tokens_plain (toks : list string) :
  Forall (fun t => is_marker t = false) toks ->
  forall c,
    argc c = Z.of_nat (List.length (argv c)) ->
    argc c <= MAX_CMD_ARGS ->
    (argc c + Z.of_nat (List.length toks) <= MAX_CMD_ARGS ->
     parse_tokens toks c
     = Ok (mkCommand (argv c ++ toks) (argc c + Z.of_nat (List.length toks))
                     (isBgProcess c) (wantsInputR c) (wantsOutputR c)
                     (inRedirFile c) (outRedirFile c)))
    /\ (MAX_CMD_ARGS < argc c + Z.of_nat (List.length toks) ->
        exists why, parse_tokens toks c = Undefined why).
Proof.
  induction 1 as [|t rest Ht Hrest IH]; intros c Hc Hmax.
  - split.
    + intros _. simpl. rewrite app_nil_r, Z.add_0_r. destruct c; reflexivity.
    + simpl. lia.
  - unfold is_marker in Ht. apply orb_false_elim in Ht. destruct Ht as [Ht Eamp].
    apply orb_false_elim in Ht. destruct Ht as [Elt Egt].
    simpl parse_tokens. rewrite Elt, Egt, Eamp. unfold push_arg.
    change (List.length (t :: rest)) with (S (List.length rest)).
    rewrite Nat2Z.inj_succ.
    destruct (Z.ltb_spec (argc c) MAX_CMD_ARGS) as [Hroom|Hfull].
    + simpl rbind.
      match goal with |- context [parse_tokens rest ?c1] =>
        destruct (IH c1) as [Hok Hbad] end.
      { simpl. rewrite length_app. simpl. lia. }
      { simpl. lia. }
      simpl in Hok, Hbad. split.
      * intros Hle. rewrite Hok; [|lia]. rewrite <- app_assoc. simpl.
        f_equal. f_equal. lia.
      * intros Hgt. apply Hbad. lia.
    + split; [lia|]. intros _. eexists. reflexivity.
Qed.

(** When the first token is an argument it is [argv[0]]. *)
Lemma parse_tokens_extends (n : nat) :
  forall toks c c',
    (List.length toks <= n)%nat ->
    parse_tokens toks c = Ok c' ->
    exists more, argv c' = (argv c ++ more)%list.
Proof.
  induction n as [|n IH]; intros toks c c' Hlen.
  - destruct toks; [|simpl in Hlen; lia].
    simpl. intros H. injection H as <-. exists []. now rewrite app_nil_r.
  - destruct toks as [|t rest].
    { simpl. intros H. injection H as <-. exists []. now rewrite app_nil_r. }
    simpl in Hlen. simpl parse_tokens.
    destruct (String.eqb t "<").
    { destruct rest as [|p rest']; [discriminate|].
      simpl. intros H. apply IH in H; [exact H|simpl in Hlen; lia]. }
    destruct (String.eqb t ">").
    { destruct rest as [|p rest']; [discriminate|].
      simpl. intros H. apply IH in H; [exact H|simpl in Hlen; lia]. }
    destruct (String.eqb t "&").
    { intros H. apply IH in H; [exact H|lia]. }
    unfold push_arg. destruct (argc c <? MAX_CMD_ARGS); [|discriminate].
    simpl. intros H. apply IH in H; [|lia]. simpl in H.
    destruct H as [more ->]. exists (t :: more). now rewrite <- app_assoc.
Qed.

Lemma well_formed_init (U : list string) : well_formed U initCommand.
Proof.
  unfold well_formed. simpl. repeat split; auto; try contradiction;
    discriminate.
Qed.

Lemma parse_input_cases (input : string) (cmd : Command) :
  parse_input input = Ok cmd ->
  parse_tokens (strtok_all input) initCommand = Ok cmd
  /\ argc cmd < MAX_CMD_ARGS.
Proof.
  unfold parse_input.
  destruct (parse_tokens (strtok_all input) initCommand) as [c|why];
    [|discriminate].
  simpl. unfold terminate_argv.
  destruct (Z.ltb_spec (argc c) MAX_CMD_ARGS) as [Hroom|_]; [|discriminate].
  intros E. injection E as <-. split; [reflexivity|exact Hroom].
Qed.

End Descriptor.

(** X5.  Whatever the line, a descriptor that [getCommand] returns is well
    formed: [argc] is the number of arguments and at most 511, the three
    flags are 0 or 1, a redirection flag is 1 exactly when its path is
    present, every argument and path is a token of the line, and no
    argument is [<], [>] or [&]. *)
Theorem X5_descriptor_well_formed (p q : Proc) (cmd : Command) :
  getCommand p = Returns cmd q ->
  well_formed (strtok_all (line_read p)) cmd
  /\ argc cmd < MAX_CMD_ARGS.
Proof.
  intros G. apply getCommand_inv in G. destruct G as [G _].
  apply parse_input_cases in G. destruct G as [G Hroom].
  split; [|exact Hroom].
  eapply parse_tokens_well_formed;
    [apply Nat.le_refl|exact G|auto|apply well_formed_init].
Qed.

Lemma X5_descriptor_well_formed_witness :
  well_formed (strtok_all (line_read
                 (start SIG_DFL SIG_DFL ("wc -l < in > out &" ++ nl))))
              (mkCommand ["wc"; "-l"] 2 1 1 1 (Some "in") (Some "out"))
  /\ argc (mkCommand ["wc"; "-l"] 2 1 1 1 (Some "in") (Some "out"))
     < MAX_CMD_ARGS.
Proof.
  apply (X5_descriptor_well_formed
           (start SIG_DFL SIG_DFL ("wc -l < in > out &" ++ nl))
           (emit (Fgets ("wc -l < in > out &" ++ nl))
              (set_stdin ""
                 (emit (Write 1 ": ")
                    (start SIG_DFL SIG_DFL ("wc -l < in > out &" ++ nl)))))).
  vm_compute. reflexivity.
Defined.

(** X6.  A line without [<], [>] and [&] is handed over verbatim when it
    has at most 511 tokens: the arguments are its tokens in order, no flag
    is set and no path stored.  With 512 tokens or more the parser writes
    past the end of [argv] and its behaviour is undefined. *)
Theorem X6_plain_line (input : string) :
  Forall (fun t => is_marker t = false) (strtok_all input) ->
  (Z.of_nat (List.length (strtok_all input)) < MAX_CMD_ARGS ->
   parse_input input
   = Ok (mkCommand (strtok_all input)
                   (Z.of_nat (List.length (strtok_all input)))
                   0 0 0 None None))
  /\ (MAX_CMD_ARGS <= Z.of_nat (List.length (strtok_all input)) ->
      exists why, parse_input input = Undefined why).
Proof.
  intros Hplain.
  destruct (parse_tokens_plain _ Hplain initCommand eq_refl) as [Hok Hbad];
    [unfold MAX_CMD_ARGS; simpl; lia|].
  simpl in Hok, Hbad. unfold parse_input. split.
  - intros Hlt. rewrite Hok; [|lia]. simpl. unfold terminate_argv. simpl.
    apply Z.ltb_lt in Hlt. rewrite Hlt. reflexivity.
  - intros Hge.
    destruct (Z.eq_dec (Z.of_nat (List.length (strtok_all input)))
                       MAX_CMD_ARGS) as [Heq|Hne].
    + rewrite Hok; [|lia]. simpl. unfold terminate_argv. simpl.
      rewrite Heq. eexists. reflexivity.
    + destruct Hbad as [why ->]; [lia|]. eexists. reflexivity.
Qed.

Lemma X6_plain_line_witness :
  parse_input ("echo hello world" ++ nl)
  = Ok (mkCommand ["echo"; "hello"; "world"] 3 0 0 0 None None).
Proof.
  apply (proj1 (X6_plain_line ("echo hello world" ++ nl)
                  ltac:(repeat constructor))).
  vm_compute. reflexivity.
Defined.

(** ** The dispatcher *)

Section Dispatcher.

Lemma hash_not_marker (t : string) :
  starts_with_hash t = true -> is_marker t = false.
Proof.
  destruct t as [|c t]; [discriminate|]. simpl. intros H.
  apply Ascii.eqb_eq in H. subst c. unfold is_marker.
  destruct t; reflexivity.
Qed.

(** A first token that is an argument becomes [argv[0]], and then [argc] is
    not 0. *)
Lemma first_argument (input : string) (cmd : Command) (t : string)
    (rest : list string) :
  parse_input input = Ok cmd ->
  strtok_all input = t :: rest -> is_marker t = false ->
  exists args, argv cmd = t :: args /\ (argc cmd =? 0) = false.
Proof.
  intros P Htok Hm. apply parse_input_cases in P. destruct P as [P _].
  pose proof (parse_tokens_well_formed (strtok_all input) _ _ _ _
                (Nat.le_refl _) P (fun _ H => H) (well_formed_init _))
    as (A & _).
  rewrite Htok in P. simpl in P.
  unfold is_marker in Hm. apply orb_false_elim in Hm. destruct Hm as [Hm Eamp].
  apply orb_false_elim in Hm. destruct Hm as [Elt Egt].
  rewrite Elt, Egt, Eamp in P. simpl in P.
  destruct (parse_tokens_extends _ _ _ _ (Nat.le_refl _) P) as [more Hargv].
  simpl in Hargv. exists more. split; [exact Hargv|].
  rewrite A, Hargv. reflexivity.
Qed.

(** The ways through the dispatcher, with what they say of [external]. *)
Lemma dispatch_cases (cmd : Command) (os : os_reply) (p : Proc) :
  (external cmd = false
   /\ (execCommand cmd os p = Returns 0 p
       \/ builtin "exit" cmd = true
       \/ builtin "status" cmd = true
       \/ (builtin "cd" cmd = true
           /\ exists args, argv cmd = "cd" :: args
                           /\ execCommand cmd os p = builtin_cd args os p)))
  \/ external cmd = true.
Proof.
  unfold builtin, external, execCommand.
  destruct (argv cmd) as [|name args]; [left; split; [|left]; reflexivity|].
  destruct (argc cmd =? 0); [left; split; [|left]; reflexivity|].
  destruct (starts_with_hash name); [left; split; [|left]; reflexivity|].
  destruct (String.eqb name "exit");
    [left; split; [|right; left]; reflexivity|].
  destruct (String.eqb name "status");
    [left; split; [|right; right; left]; reflexivity|].
  destruct (String.eqb_spec name "cd") as [->|_].
  - left. split; [reflexivity|]. right. right. right.
    split; [reflexivity|]. exists args. split; reflexivity.
  - right. reflexivity.
Qed.

End Dispatcher.

(** X7.  A line of white space only, and a line whose first token begins
    with [#], do nothing: when the parser accepts the line, [execCommand]
    returns 0 and leaves the process as it was, whatever else the line
    holds. *)
Theorem X7_blank_and_comment_lines
    (p q : Proc) (cmd : Command) (os : os_reply) :
  getCommand p = Returns cmd q ->
  strtok_all (line_read p) = []
  \/ (exists t rest, strtok_all (line_read p) = t :: rest
                     /\ starts_with_hash t = true) ->
  execCommand cmd os q = Returns 0 q.
Proof.
  intros G H. apply getCommand_inv in G. destruct G as [G _].
  destruct H as [Hnil|(t & rest & Htok & Hhash)].
  - unfold parse_input in G. rewrite Hnil in G. simpl in G.
    injection G as <-. reflexivity.
  - destruct (first_argument _ _ _ _ G Htok (hash_not_marker t Hhash))
      as (args & Hargv & Hargc).
    unfold execCommand. rewrite Hargv, Hargc, Hhash. reflexivity.
Qed.

Lemma X7_blank_and_comment_lines_witness :
  let p := start SIG_DFL SIG_DFL ("#run ls > out &" ++ nl) in
  let q := emit (Fgets ("#run ls > out &" ++ nl))
             (set_stdin "" (emit (Write 1 ": ") p)) in
  execCommand (mkCommand ["#run"; "ls"] 2 1 0 1 None (Some "out"))
              (mkReply 7 7 0 None 0 0 0 0 0 true) q
  = Returns 0 q.
Proof.
  intros p q.
  apply (X7_blank_and_comment_lines p q).
  - vm_compute. reflexivity.
  - right. exists "#run", ["ls"; ">"; "out"; "&"]. split; reflexivity.
Defined.

(** What a call adds to the trace, by the kind of command. *)
Lemma execCommand_effects
    (cmd : Command) (os : os_reply) (p q : Proc) (o : outcome Z) :
  execCommand cmd os p = o -> final_proc o = Some q ->
  exists evs,
    trace q = (trace p ++ evs)%list
    /\ if external cmd then exists evs', evs = Fork (fork_ret os) :: evs'
       else existsb spawns evs = false
            /\ fd0 q = fd0 p /\ fd1 q = fd1 p /\ sigint q = sigint p.
Proof.
  destruct (dispatch_cases cmd os p)
    as [[E [X|[B|[B|[B (args & _ & X)]]]]]|Hext].
  - rewrite E, X. intros <-. simpl. intros [= <-]. exists [].
    split; [now rewrite app_nil_r|repeat split].
  - rewrite E, (execCommand_exit cmd os p B). unfold kill_group_SIGTERM.
    intros <-. simpl sigterm.
    destruct (sigterm p); simpl; intros [= <-]; eexists;
      (split; [reflexivity|repeat split]).
  - rewrite E, (execCommand_status cmd os p B). intros <-. simpl.
    intros [= <-]. eexists. split; [reflexivity|repeat split].
  - rewrite E, X. intros <-. unfold builtin_cd.
    destruct args; destruct (chdir_ret os =? -1); simpl; intros [= <-];
      eexists; simpl; (split; [rewrite <- ?app_assoc; reflexivity|repeat split]).
  - rewrite Hext.
    destruct (execCommand_external cmd os p Hext) as (name & a & _ & ->).
    unfold launch. destruct (fork_ret os =? 0) eqn:H0.
    + intros Hc Hq. destruct (child_shape _ _ _ _ _ _ Hc Hq) as [St _].
      rewrite child_policy_proc in St.
      destruct St as (_ & _ & _ & _ & evs & Tr & _).
      destruct (isBgProcess cmd =? 0); simpl in Tr; eexists;
        (split; [rewrite Tr, <- !app_assoc; reflexivity|]);
        eexists; reflexivity.
    + destruct (fork_ret os >? 0).
      * unfold parent. intros <-. destruct (isBgProcess cmd =? 0).
        -- destruct (WIFEXITED (wait_status os));
             [|destruct (WIFSIGNALED (wait_status os))];
             simpl; intros [= <-]; eexists; simpl;
             (split; [rewrite <- ?app_assoc; reflexivity|]);
             eexists; reflexivity.
        -- simpl. intros [= <-]. eexists. simpl.
           split; [rewrite <- ?app_assoc; reflexivity|].
           eexists; reflexivity.
      * intros <-. simpl. intros [= <-]. eexists. simpl.
        split; [rewrite <- ?app_assoc; reflexivity|].
        eexists; reflexivity.
Qed.


(** X8.  Only a program launch touches processes and descriptors.  A call
    of [execCommand] for a command that is not external (a blank line, a
    comment or a built-in, whatever its background flag and redirection
    requests) makes no [fork], wait, [open], [dup2], [execvp] or
    [sigaction] call and leaves the standard descriptors as they are; a
    call for an external command begins with [fork]. *)
Theorem X8_only_launches_fork
    (cmd : Command) (os : os_reply) (p q : Proc) (o : outcome Z) :
  execCommand cmd os p = o -> final_proc o = Some q ->
  exists evs,
    trace q = (trace p ++ evs)%list
    /\ if external cmd then exists evs', evs = Fork (fork_ret os) :: evs'
       else existsb spawns evs = false
            /\ fd0 q = fd0 p /\ fd1 q = fd1 p /\ sigint q = sigint p.
Proof. apply execCommand_effects. Qed.

Lemma X8_only_launches_fork_witness :
  exists evs,
    trace (set_ENDSTATE "exit value 0"
             (emit (Write 1 ("NULL" ++ nl)) (start SIG_IGN SIG_DFL "")))
    = (trace (start SIG_IGN SIG_DFL "") ++ evs)%list
    /\ existsb spawns evs = false
    /\ fd0 (set_ENDSTATE "exit value 0"
              (emit (Write 1 ("NULL" ++ nl)) (start SIG_IGN SIG_DFL "")))
       = Inherited
    /\ fd1 (set_ENDSTATE "exit value 0"
              (emit (Write 1 ("NULL" ++ nl)) (start SIG_IGN SIG_DFL "")))
       = Inherited
    /\ sigint (set_ENDSTATE "exit value 0"
                 (emit (Write 1 ("NULL" ++ nl)) (start SIG_IGN SIG_DFL "")))
       = SIG_IGN.
Proof.
  exact (X8_only_launches_fork
           (mkCommand ["status"] 1 1 1 1 None (Some "out"))
           (mkReply 0 0 0 None 0 0 0 0 0 true)
           (start SIG_IGN SIG_DFL "") _ _ eq_refl eq_refl).
Defined.

(** X9.  [cd] changes to its first argument, or to the value of HOME when
    it has none, ignoring further arguments.  It sets the record to "exit
    value 0"; when [chdir] returns -1 it writes "no such file or directory"
    to standard error and sets the record to "exit value 1".  Either way
    [execCommand] returns 0 and the shell goes on. *)
Theorem X9_cd_builtin (cmd : Command) (os : os_reply) (p : Proc) :
  builtin "cd" cmd = true ->
  exists q,
    execCommand cmd os p = Returns 0 q
    /\ trace q
       = (trace p
          ++ match tl (argv cmd) with
             | [] => [Getenv "HOME"; Chdir (home os) (chdir_ret os)]
             | d :: _ => [Chdir (Some d) (chdir_ret os)]
             end
          ++ if chdir_ret os =? -1
             then [Write 2 ("no such file or directory" ++ nl)] else [])%list
    /\ ENDSTATE q
       = if chdir_ret os =? -1 then "exit value 1" else "exit value 0".
Proof.
  intros B. destruct (builtin_name _ _ B) as (args & Hargv & Hargc).
  unfold execCommand. rewrite Hargv, Hargc. simpl. unfold builtin_cd.
  destruct args; destruct (chdir_ret os =? -1); eexists;
    (split; [reflexivity|]); simpl; (split; [|reflexivity]);
    rewrite <- ?app_assoc; reflexivity.
Qed.

Lemma X9_cd_builtin_witness :
  exists q,
    execCommand (mkCommand ["cd"; "/nowhere"; "x"] 3 0 0 0 None None)
                (mkReply 0 0 0 (Some "/root") (-1) 0 0 0 0 false)
                (start SIG_IGN SIG_DFL "")
    = Returns 0 q
    /\ trace q = [Chdir (Some "/nowhere") (-1);
                  Write 2 ("no such file or directory" ++ nl)]
    /\ ENDSTATE q = "exit value 1".
Proof.
  exact (X9_cd_builtin (mkCommand ["cd"; "/nowhere"; "x"] 3 0 0 0 None None)
           (mkReply 0 0 0 (Some "/root") (-1) 0 0 0 0 false)
           (start SIG_IGN SIG_DFL "") eq_refl).
Defined.

(** X10.  A failed [fork] ends the shell: for an external command, when
    [fork] returns a negative value the process writes "fork error" to
    standard error and exits with status 1, and no further pass of the loop
    is made. *)
Theorem X10_fork_failure_ends_shell
    (p p1 : Proc) (it : iteration) (script : list iteration) (cmd : Command) :
  getCommand (cleanUp (reaped it) p) = Returns cmd p1 ->
  external cmd = true ->
  fork_ret (reply it) < 0 ->
  shell_loop (it :: script) p
  = Exits 1 (emit (Write 2 "fork error")
                  (emit (Fork (fork_ret (reply it))) p1)).
Proof.
  intros G Hext Hneg. simpl shell_loop. rewrite G. cbn [obind].
  destruct (execCommand_external cmd (reply it) p1 Hext) as (n & a & _ & ->).
  unfold launch.
  assert (H0 : (fork_ret (reply it) =? 0) = false) by (apply Z.eqb_neq; lia).
  assert (H1 : (fork_ret (reply it) >? 0) = false).
  { destruct (Z.gtb_spec (fork_ret (reply it)) 0); [lia|reflexivity]. }
  rewrite H0, H1. reflexivity.
Qed.

Lemma X10_fork_failure_ends_shell_witness :
  exists q,
    shell_loop [mkIteration [] (mkReply (-1) (-1) 0 None 0 0 0 0 0 false);
                mkIteration [] (mkReply 5 5 0 None 0 0 0 0 0 false)]
               (start SIG_IGN SIG_DFL ("ls" ++ nl ++ "ls" ++ nl))
    = Exits 1 q.
Proof.
  eexists.
  eapply (X10_fork_failure_ends_shell (start SIG_IGN SIG_DFL
                                         ("ls" ++ nl ++ "ls" ++ nl))).
  - vm_compute. reflexivity.
  - reflexivity.
  - simpl. lia.
Defined.

(** X11.  The shell does not stop at the end of its input.  Once standard
    input is exhausted every pass reads an empty buffer, runs nothing and
    leaves the record alone: however many passes follow, the loop is still
    running, and all it has read are empty buffers. *)
Theorem X11_end_of_input_never_stops (script : list iteration) :
  forall p,
    stdin p = "" ->
    exists q,
      shell_loop script p = Waiting q
      /\ stdin q = "" /\ ENDSTATE q = ENDSTATE p
      /\ lines_read (trace q)
         = (lines_read (trace p) ++ repeat "" (List.length script))%list.
Proof.
  induction script as [|it script IH]; intros p Hs.
  - exists p. simpl. rewrite app_nil_r. repeat split. exact Hs.
  - destruct (cleanUp_emits (reaped it) p) as (evs & Hc & Hr).
    destruct (reaper_events_inert evs Hr) as (L & _).
    assert (G : getCommand (cleanUp (reaped it) p)
                = Returns initCommand
                    (emit (Fgets "")
                       (set_stdin "" (emit (Write 1 ": ")
                                           (cleanUp (reaped it) p))))).
    { unfold getCommand. rewrite Hc. simpl stdin. rewrite Hs, fgets_eof.
      reflexivity. }
    destruct (IH (emit (Fgets "")
                    (set_stdin "" (emit (Write 1 ": ")
                                        (cleanUp (reaped it) p)))))
      as (q & Hq & Hsq & He & Hl); [reflexivity|].
    exists q. simpl shell_loop. rewrite G. cbn [obind]. simpl execCommand.
    cbn [obind]. simpl Z.eqb. cbv iota. split; [exact Hq|].
    split; [exact Hsq|]. split.
    + rewrite He, Hc. reflexivity.
    + rewrite Hl, Hc. simpl. rewrite !lines_read_app, L. simpl.
      rewrite !app_nil_r, <- app_assoc. reflexivity.
Qed.

Lemma X11_end_of_input_never_stops_witness :
  exists q,
    shell_loop [mkIteration [] (mkReply 0 0 0 None 0 0 0 0 0 false);
                mkIteration [(9, 0)] (mkReply 0 0 0 None 0 0 0 0 0 false)]
               (start SIG_IGN SIG_DFL "")
    = Waiting q
    /\ stdin q = "" /\ ENDSTATE q = "NULL"
    /\ lines_read (trace q) = [""; ""].
Proof.
  exact (X11_end_of_input_never_stops
           [mkIteration [] (mkReply 0 0 0 None 0 0 0 0 0 false);
            mkIteration [(9, 0)] (mkReply 0 0 0 None 0 0 0 0 0 false)]
           (start SIG_IGN SIG_DFL "") eq_refl).
Defined.

(** ** What every session keeps *)

Section Kept.

Lemma WEXITSTATUS_range (status : Z) : 0 <= WEXITSTATUS status <= 255.
Proof.
  unfold WEXITSTATUS. rewrite Z.shiftr_land.
  change (Z.shiftr 65280 8) with (Z.ones 8).
  rewrite Z.land_ones by lia.
  pose proof (Z.mod_pos_bound (Z.shiftr status 8) (2 ^ 8) ltac:(lia)). lia.
Qed.

Lemma WTERMSIG_signaled (status : Z) :
  WIFSIGNALED status = true -> 1 <= WTERMSIG status <= 126.
Proof.
  unfold WIFSIGNALED, WTERMSIG.
  change 127 with (Z.ones 7). rewrite Z.land_ones by lia.
  pose proof (Z.mod_pos_bound status (2 ^ 7) ltac:(lia)) as Hb.
  set (t := status mod 2 ^ 7) in *.
  pose (f := fun t => negb (Z.shiftr (signed_char (t + 1)) 1 >? 0)
                      || ((1 <=? t) && (t <=? 126))).
  assert (Hf : f t = true).
  { apply (range_check f 0 128); [vm_compute; reflexivity|].
    change (2 ^ 7) with 128 in Hb. simpl. lia. }
  unfold f in Hf. intros Hs. rewrite Hs in Hf. simpl in Hf.
  apply andb_prop in Hf. destruct Hf as [H1 H2].
  apply Z.leb_le in H1, H2. lia.
Qed.

(** Who the process is after a call: the child of a launch, which ends with
    a new image or with [exit(1)]; or the process it was, with its
    descriptors. *)
Lemma execCommand_roles (cmd : Command) (os : os_reply) (p q : Proc)
    (o : outcome Z) :
  execCommand cmd os p = o -> final_proc o = Some q ->
  (external cmd = true /\ fork_ret os = 0 /\ is_child q = true
   /\ (o = Exits 1 q \/ exists f a, o = Execs f a q))
  \/ ((external cmd = false \/ fork_ret os <> 0)
      /\ is_child q = is_child p /\ fd0 q = fd0 p /\ fd1 q = fd1 p
      /\ action_handler q = action_handler p).
Proof.
  intros X Hq.
  destruct (external cmd) eqn:Hext.
  - revert X.
    destruct (execCommand_external cmd os p Hext) as (name & a & _ & ->).
    unfold launch. destruct (fork_ret os =? 0) eqn:H0.
    + intros Hc. left. apply Z.eqb_eq in H0.
      destruct (child_shape _ _ _ _ _ _ Hc Hq) as [St Ho].
      rewrite child_policy_proc in St.
      destruct St as (_ & _ & _ & _ & evs & Tr & _).
      repeat split; try assumption.
      * unfold is_child. rewrite Tr, H0.
        destruct (isBgProcess cmd =? 0); simpl;
          rewrite !existsb_app; simpl; now rewrite !orb_true_r.
      * destruct Ho as [Ho|Ho]; [left; exact Ho|right; eauto].
    + intros <-. right. apply Z.eqb_neq in H0. split; [right; exact H0|].
      revert Hq. unfold is_child.
      destruct (fork_ret os >? 0).
      * unfold parent. destruct (isBgProcess cmd =? 0);
          [destruct (WIFEXITED (wait_status os));
             [|destruct (WIFSIGNALED (wait_status os))]|];
          simpl; intros [= <-]; simpl; rewrite !existsb_app; simpl;
          destruct (fork_ret os); try contradiction;
          rewrite ?orb_false_r; repeat split.
      * simpl. intros [= <-]. simpl. rewrite !existsb_app. simpl.
        destruct (fork_ret os); try contradiction;
          rewrite ?orb_false_r; repeat split.
  - right. split; [left; reflexivity|]. unfold is_child.
    destruct (execCommand_effects _ _ _ _ _ X Hq) as (evs & Tr & E).
    rewrite Hext in E. destruct E as (S & F0 & F1 & _).
    assert (Hno : existsb is_fork0 evs = false).
    { clear - S. induction evs as [|e evs IH]; [reflexivity|].
      simpl in S. apply orb_false_elim in S. destruct S as [Se S].
      simpl. rewrite (IH S). destruct e; try reflexivity; discriminate Se. }
    rewrite Tr, existsb_app, Hno, orb_false_r.
    repeat split; try assumption.
    destruct (dispatch_cases cmd os p)
      as [[_ [Y|[B|[B|[B (args & _ & Y)]]]]]|Habs];
      [| | | |rewrite Habs in Hext; discriminate Hext].
    + rewrite Y in X. subst o. simpl in Hq. injection Hq as <-. reflexivity.
    + rewrite (execCommand_exit cmd os p B) in X. subst o. revert Hq.
      unfold kill_group_SIGTERM. simpl sigterm.
      destruct (sigterm p); simpl; intros [= <-]; reflexivity.
    + rewrite (execCommand_status cmd os p B) in X. subst o.
      simpl in Hq. injection Hq as <-. reflexivity.
    + rewrite Y in X. subst o. revert Hq. unfold builtin_cd.
      destruct args; destruct (chdir_ret os =? -1); simpl; intros [= <-];
        reflexivity.
Qed.

(** The record after a call has one of its three shapes if it had before. *)
Lemma execCommand_record (cmd : Command) (os : os_reply) (p q : Proc)
    (o : outcome Z) :
  execCommand cmd os p = o -> final_proc o = Some q ->
  record_shape (ENDSTATE p) -> record_shape (ENDSTATE q).
Proof.
  intros X Hq Hp.
  assert (Zero : record_shape "exit value 0").
  { right. left. exists 0. split; [lia|reflexivity]. }
  assert (One : record_shape "exit value 1").
  { right. left. exists 1. split; [lia|reflexivity]. }
  destruct (dispatch_cases cmd os p)
    as [[_ [Y|[B|[B|[B (args & _ & Y)]]]]]|Hext].
  - rewrite Y in X. subst o. simpl in Hq. injection Hq as <-. exact Hp.
  - rewrite (execCommand_exit cmd os p B) in X. subst o. revert Hq.
    unfold kill_group_SIGTERM. simpl sigterm.
    destruct (sigterm p); simpl; intros [= <-]; exact Hp.
  - rewrite (execCommand_status cmd os p B) in X. subst o.
    simpl in Hq. injection Hq as <-. exact Zero.
  - rewrite Y in X. subst o. revert Hq. unfold builtin_cd.
    destruct args; destruct (chdir_ret os =? -1); simpl; intros [= <-];
      assumption.
  - revert X.
    destruct (execCommand_external cmd os p Hext) as (name & a & _ & ->).
    unfold launch. destruct (fork_ret os =? 0).
    + intros Hc. destruct (child_shape _ _ _ _ _ _ Hc Hq) as [St _].
      rewrite child_policy_proc in St. destruct St as (E & _).
      rewrite E. destruct (isBgProcess cmd =? 0); exact Hp.
    + intros <-. revert Hq. destruct (fork_ret os >? 0).
      * unfold parent. destruct (isBgProcess cmd =? 0).
        -- destruct (WIFEXITED (wait_status os));
             [|destruct (WIFSIGNALED (wait_status os)) eqn:Hs];
             simpl; intros [= <-]; simpl.
           ++ right. left. exists (WEXITSTATUS (wait_status os)).
              split; [apply WEXITSTATUS_range|reflexivity].
           ++ right. right. exists (WTERMSIG (wait_status os)).
              split; [apply WTERMSIG_signaled; exact Hs|reflexivity].
           ++ exact Hp.
        -- simpl. intros [= <-]. exact Hp.
      * simpl. intros [= <-]. exact Hp.
Qed.

End Kept.

(** X12.  In every session, in the shell and in its children, the
    process-exit record holds "NULL", or "exit value N" with N from 0 to
    255, or "terminated by signal N" with N from 1 to 126: these are the
    only texts that [status] can print. *)
Theorem X12_record_shape
    (int term : sighandler) (input : string) (script : list iteration)
    (o : outcome Z) (q : Proc) :
  main int term input script = o -> final_proc o = Some q ->
  record_shape (ENDSTATE q).
Proof.
  unfold main, main_from.
  apply (shell_loop_invariant (fun p => record_shape (ENDSTATE p))).
  - intros answers p Hp.
    destruct (cleanUp_emits answers p) as (evs & -> & _). exact Hp.
  - intros p cmd p1 os o' q' Hp G X Hq.
    apply (execCommand_record _ _ _ _ _ X Hq).
    apply getCommand_emits in G. rewrite G. exact Hp.
  - left. reflexivity.
Qed.

Lemma X12_record_shape_witness :
  record_shape "terminated by signal 2".
Proof.
  exact (X12_record_shape SIG_DFL SIG_DFL ("sleep 9" ++ nl)
           [mkIteration []
              (mkReply 6 6 (wait_status_of (Signaled 2 false))
                       None 0 0 0 0 0 true)]
           _ _ eq_refl eq_refl).
Defined.

(** X13.  The shell process is not changed by what it launches: in every
    state of a session in which the process is the shell itself, standard
    input and output are the descriptors it inherited; and no process of a
    session, shell or child, ever changes the disposition of SIGTERM. *)
Theorem X13_shell_keeps_descriptors
    (int term : sighandler) (input : string) (script : list iteration)
    (o : outcome Z) (q : Proc) :
  main int term input script = o -> final_proc o = Some q ->
  sigterm q = term
  /\ (is_child q = false -> fd0 q = Inherited /\ fd1 q = Inherited).
Proof.
  unfold main, main_from.
  apply (shell_loop_invariant
           (fun p => sigterm p = term
                     /\ (is_child p = false ->
                         fd0 p = Inherited /\ fd1 p = Inherited))).
  - intros answers p Hp.
    destruct (cleanUp_emits answers p) as (evs & -> & Hr).
    destruct (reaper_events_inert evs Hr) as (_ & _ & F & _).
    unfold is_child in *. simpl. rewrite existsb_app, F, orb_false_r.
    exact Hp.
  - intros p cmd p1 os o' q' [Ht Hp] G X Hq.
    apply getCommand_emits in G.
    destruct (execCommand_summary _ _ _ _ _ X Hq) as (T & _).
    split; [rewrite T, G; exact Ht|].
    destruct (execCommand_roles _ _ _ _ _ X Hq)
      as [(_ & _ & Hc & _)|(_ & Hc & F0 & F1 & _)].
    + rewrite Hc. discriminate.
    + rewrite Hc, F0, F1, G. unfold is_child. simpl.
      rewrite existsb_app. simpl. rewrite orb_false_r. exact Hp.
  - split; [reflexivity|]. intros _. split; reflexivity.
Qed.

Lemma X13_shell_keeps_descriptors_witness :
  sigterm (mkProc "exit value 0" SIG_IGN SIG_IGN SIG_DFL Inherited Inherited ""
             [Sigaction SIGINT SIG_IGN; Waitpid (-1) WNOHANG (-1) 0;
              Write 1 ": "; Fgets ("ls > out" ++ nl); Fork 8;
              Waitpid 8 0 8 0]) = SIG_DFL
  /\ (is_child (mkProc "exit value 0" SIG_IGN SIG_IGN SIG_DFL
                  Inherited Inherited ""
                  [Sigaction SIGINT SIG_IGN; Waitpid (-1) WNOHANG (-1) 0;
                   Write 1 ": "; Fgets ("ls > out" ++ nl); Fork 8;
                   Waitpid 8 0 8 0]) = false ->
      fd0 (mkProc "exit value 0" SIG_IGN SIG_IGN SIG_DFL
             Inherited Inherited ""
             [Sigaction SIGINT SIG_IGN; Waitpid (-1) WNOHANG (-1) 0;
              Write 1 ": "; Fgets ("ls > out" ++ nl); Fork 8;
              Waitpid 8 0 8 0]) = Inherited
      /\ fd1 (mkProc "exit value 0" SIG_IGN SIG_IGN SIG_DFL
                Inherited Inherited ""
                [Sigaction SIGINT SIG_IGN; Waitpid (-1) WNOHANG (-1) 0;
                 Write 1 ": "; Fgets ("ls > out" ++ nl); Fork 8;
                 Waitpid 8 0 8 0]) = Inherited).
Proof.
  exact (X13_shell_keeps_descriptors SIG_DFL SIG_DFL ("ls > out" ++ nl)
           [mkIteration [] (mkReply 8 8 0 None 0 0 0 0 0 true)]
           _ _ eq_refl eq_refl).
Defined.

Section Ends.

(** How a call ends in the process that is not the child of its launch. *)
Lemma execCommand_shell_outcomes (cmd : Command) (os : os_reply) (p q : Proc)
    (o : outcome Z) :
  execCommand cmd os p = o -> final_proc o = Some q ->
  external cmd = false \/ fork_ret os <> 0 ->
  o = Returns 0 q \/ o = Returns 1 q \/ o = Killed SIGTERM q \/ o = Exits 1 q.
Proof.
  intros X Hq Hrole.
  destruct (dispatch_cases cmd os p)
    as [[_ [Y|[B|[B|[B (args & _ & Y)]]]]]|Hext].
  - rewrite Y in X. subst o. simpl in Hq. injection Hq as <-. auto.
  - rewrite (execCommand_exit cmd os p B) in X. subst o. revert Hq.
    unfold kill_group_SIGTERM. simpl sigterm.
    destruct (sigterm p); simpl; intros [= <-]; auto.
  - rewrite (execCommand_status cmd os p B) in X. subst o.
    simpl in Hq. injection Hq as <-. auto.
  - rewrite Y in X. subst o. revert Hq. unfold builtin_cd.
    destruct args; destruct (chdir_ret os =? -1); simpl; intros [= <-]; auto.
  - destruct Hrole as [Hr|Hr]; [rewrite Hr in Hext; discriminate Hext|].
    revert X.
    destruct (execCommand_external cmd os p Hext) as (name & a & _ & ->).
    unfold launch. apply Z.eqb_neq in Hr. rewrite Hr.
    intros <-. revert Hq. destruct (fork_ret os >? 0).
    + unfold parent. destruct (isBgProcess cmd =? 0);
        [destruct (WIFEXITED (wait_status os));
           [|destruct (WIFSIGNALED (wait_status os))]|];
        simpl; intros [= <-]; auto.
    + simpl. intros [= <-]. auto.
Qed.

Lemma read_step_role (answers : list (Z * Z)) (p q : Proc) (cmd : Command) :
  getCommand (cleanUp answers p) = Returns cmd q ->
  is_child q = is_child p.
Proof.
  intros G. apply getCommand_emits in G. rewrite G.
  destruct (cleanUp_emits answers p) as (evs & -> & Hr).
  destruct (reaper_events_inert evs Hr) as (_ & _ & F & _).
  unfold is_child. simpl. rewrite !existsb_app, F. simpl.
  now rewrite !orb_false_r.
Qed.

Lemma shell_loop_ends (script : list iteration) :
  forall p o q,
    is_child p = false ->
    shell_loop script p = o -> final_proc o = Some q ->
    (is_child q = true /\ (o = Exits 1 q \/ exists f a, o = Execs f a q))
    \/ (is_child q = false
        /\ (o = Waiting q \/ o = Exits 0 q \/ o = Exits 1 q
            \/ o = Killed SIGTERM q)).
Proof.
  induction script as [|it script IH]; intros p o q Hp <-.
  - simpl. intros [= <-]. right. auto.
  - simpl shell_loop.
    destruct (getCommand (cleanUp (reaped it) p)) as [cmd p1| | | | |] eqn:G;
      try (unfold getCommand in G;
           destruct (fgets _ _); destruct (parse_input _); discriminate G).
    + cbn [obind]. pose proof (read_step_role _ _ _ _ G) as Hrole.
      rewrite Hp in Hrole.
      destruct (execCommand cmd (reply it) p1) as [r p2|c p2|f a p2|sg p2|p2|w]
        eqn:X; cbn [obind]; try discriminate.
      * destruct (execCommand_roles _ _ _ _ _ X eq_refl)
          as [(_ & _ & _ & [H|(f & a & H)])|(R & Hc & _)]; try discriminate H.
        destruct (execCommand_shell_outcomes _ _ _ _ _ X eq_refl R)
          as [H|[H|[H|H]]]; try discriminate H; injection H as ->.
        -- simpl. intros Hq. eapply IH; [|reflexivity|exact Hq]. congruence.
        -- simpl. intros [= <-]. right. split; [congruence|auto].
      * simpl. intros [= <-].
        destruct (execCommand_roles _ _ _ _ _ X eq_refl)
          as [(_ & _ & Hc & [H|(f & a & H)])|(R & Hc & _)];
          [|discriminate H|].
        -- left. split; [exact Hc|]. left. exact H.
        -- right. split; [congruence|].
           destruct (execCommand_shell_outcomes _ _ _ _ _ X eq_refl R)
             as [H|[H|[H|H]]]; try discriminate H. injection H as ->. auto.
      * simpl. intros [= <-].
        destruct (execCommand_roles _ _ _ _ _ X eq_refl)
          as [(_ & _ & Hc & _)|(R & Hc & _)].
        -- left. split; [exact Hc|]. right. eauto.
        -- destruct (execCommand_shell_outcomes _ _ _ _ _ X eq_refl R)
             as [H|[H|[H|H]]]; discriminate H.
      * simpl. intros [= <-].
        destruct (execCommand_roles _ _ _ _ _ X eq_refl)
          as [(_ & _ & _ & [H|(f & a & H)])|(R & Hc & _)]; try discriminate H.
        right. split; [congruence|].
        destruct (execCommand_shell_outcomes _ _ _ _ _ X eq_refl R)
          as [H|[H|[H|H]]]; try discriminate H. injection H as ->. auto.
      * destruct (execCommand_not_waiting _ _ _ _ X).
    + discriminate.
Qed.

End Ends.

Section Undefined.

Lemma parse_tokens_fault (n : nat) :
  forall toks c why,
    (List.length toks <= n)%nat ->
    parse_tokens toks c = Undefined why -> parser_fault why.
Proof.
  induction n as [|n IH]; intros toks c why Hlen.
  - destruct toks; [discriminate|simpl in Hlen; lia].
  - destruct toks as [|t rest]; [discriminate|].
    simpl in Hlen. simpl parse_tokens.
    destruct (String.eqb t "<").
    { destruct rest as [|x rest'].
      - simpl. intros [= <-]. left. reflexivity.
      - simpl. intros H. eapply IH; [|exact H]. simpl in Hlen. lia. }
    destruct (String.eqb t ">").
    { destruct rest as [|x rest'].
      - simpl. intros [= <-]. left. reflexivity.
      - simpl. intros H. eapply IH; [|exact H]. simpl in Hlen. lia. }
    destruct (String.eqb t "&").
    { intros H. eapply IH; [|exact H]. lia. }
    unfold push_arg. destruct (argc c <? MAX_CMD_ARGS); simpl.
    + intros H. eapply IH; [|exact H]. lia.
    + intros [= <-]. right. left. reflexivity.
Qed.

Lemma getCommand_fault (p : Proc) (why : string) :
  getCommand p = Undef why -> parser_fault why.
Proof.
  unfold getCommand. destruct (fgets _ _) as [input rest].
  unfold parse_input.
  destruct (parse_tokens (strtok_all input) initCommand) as [c|w] eqn:P; simpl.
  - unfold terminate_argv. destruct (argc c <? MAX_CMD_ARGS); [discriminate|].
    intros [= <-]. right. right. reflexivity.
  - intros [= <-]. exact (parse_tokens_fault _ _ _ _ (Nat.le_refl _) P).
Qed.

(** With a path wherever a redirection is requested, the dispatcher and
    the child have no undefined step. *)
Lemma redirect_defined (wants : Z) (path : option string)
    (flags oa da target : Z) (what why : string) (p : Proc) :
  (wants = 1 -> path <> None) ->
  redirect wants path flags oa da target what p <> Undef why.
Proof.
  intros Hp. unfold redirect.
  destruct (Z.eqb_spec wants 1) as [E|_]; [|discriminate].
  destruct path as [f|]; [|destruct (Hp E eq_refl)].
  simpl sys_open. destruct (oa =? -1); [discriminate|].
  destruct (da =? -1); discriminate.
Qed.

Lemma execCommand_defined (U : list string) (cmd : Command) (os : os_reply)
    (p : Proc) (why : string) :
  well_formed U cmd -> execCommand cmd os p <> Undef why.
Proof.
  intros (_ & _ & I & O & _).
  destruct (dispatch_cases cmd os p)
    as [[_ [Y|[B|[B|[B (args & _ & Y)]]]]]|Hext].
  - rewrite Y. discriminate.
  - rewrite (execCommand_exit cmd os p B). unfold kill_group_SIGTERM.
    simpl sigterm. destruct (sigterm p); discriminate.
  - rewrite (execCommand_status cmd os p B). discriminate.
  - rewrite Y. unfold builtin_cd.
    destruct args; destruct (chdir_ret os =? -1); discriminate.
  - destruct (execCommand_external cmd os p Hext) as (name & a & _ & ->).
    unfold launch. destruct (fork_ret os =? 0).
    + unfold child.
      destruct (child_policy cmd (emit (Fork (fork_ret os)) p)) as [c p1] eqn:Pol.
      assert (Hc : (wantsInputR c = 1 -> inRedirFile c <> None)
                   /\ (wantsOutputR c = 1 -> outRedirFile c <> None)).
      { revert Pol. unfold child_policy.
        destruct (isBgProcess cmd =? 0); intros [= <- _].
        - split; intros W.
          + destruct I as [[_ H]|[H _]]; [exact H|congruence].
          + destruct O as [[_ H]|[H _]]; [exact H|congruence].
        - destruct cmd as [av ac bg wi wo fi fo]. simpl in *.
          destruct I as [[-> Hi]|[-> ->]]; destruct O as [[-> Ho]|[-> ->]];
            try (destruct fi; [|contradiction]);
            try (destruct fo; [|contradiction]);
            simpl; split; intros W; first [discriminate W | discriminate]. }
      destruct Hc as [Hi Ho].
      destruct (redirect_cases (wantsInputR c) (inRedirFile c) O_RDONLY
                  (open_in_ret os) (dup2_in_ret os) 0 "input" p1)
        as [(p2 & R1)|[(p2 & R1)|(w & R1)]];
        [| |destruct (redirect_defined _ _ _ _ _ _ _ _ _ Hi R1)];
        rewrite R1; cbn [obind]; [|discriminate].
      destruct (redirect_cases (wantsOutputR c) (outRedirFile c)
                  (Z.lor O_WRONLY (Z.lor O_CREAT O_TRUNC))
                  (open_out_ret os) (dup2_out_ret os) 1 "output" p2)
        as [(p3 & R2)|[(p3 & R2)|(w & R2)]];
        [| |destruct (redirect_defined _ _ _ _ _ _ _ _ _ Ho R2)];
        rewrite R2; cbn [obind]; [|discriminate].
      unfold do_execvp. destruct (execvp_found os); discriminate.
    + destruct (fork_ret os >? 0); [|discriminate].
      unfold parent. destruct (isBgProcess cmd =? 0); [|discriminate].
      destruct (WIFEXITED (wait_status os)); [discriminate|].
      destruct (WIFSIGNALED (wait_status os)); discriminate.
Qed.

(** The loop is undefined only where the parser is. *)
Lemma shell_loop_fault (script : list iteration) :
  forall p why, shell_loop script p = Undef why -> parser_fault why.
Proof.
  induction script as [|it script IH]; intros p why; [discriminate|].
  simpl shell_loop.
  destruct (getCommand (cleanUp (reaped it) p)) as [cmd p1| | | | |w] eqn:G;
    cbn [obind]; try discriminate.
  - assert (W : well_formed (strtok_all (line_read (cleanUp (reaped it) p)))
                            cmd).
    { apply getCommand_inv in G. destruct G as [G _].
      apply parse_input_cases in G. destruct G as [G _].
      eapply parse_tokens_well_formed;
        [apply Nat.le_refl|exact G|auto|apply well_formed_init]. }
    destruct (execCommand cmd (reply it) p1) as [r p2| | | | |w] eqn:X;
      cbn [obind]; try discriminate.
    + destruct (r =? 0); [apply IH|discriminate].
    + destruct (execCommand_defined _ _ _ _ _ W X).
  - intros [= <-]. exact (getCommand_fault _ _ G).
Qed.

End Undefined.

(** X14.  A child never comes back to the interpreter loop, and these are
    all the ways in which a session ends.  Either the parser runs into one
    of its undefined steps ([strdup] of a null pointer, a store past the end
    of [argv]); or the process is a child of the shell and has got its new
    program image or called [exit(1)]; or it is the shell itself, which is
    still running, or has exited with 0 (after [exit]), exited with 1
    (after a failed [fork]) or been terminated by SIGTERM (by its own
    [exit]). *)
Theorem X14_child_never_returns
    (int term : sighandler) (input : string) (script : list iteration)
    (o : outcome Z) :
  main int term input script = o ->
  (exists why, o = Undef why /\ parser_fault why)
  \/ (exists q,
        is_child q = true /\ (o = Exits 1 q \/ exists f a, o = Execs f a q))
  \/ (exists q,
        is_child q = false
        /\ (o = Waiting q \/ o = Exits 0 q \/ o = Exits 1 q
            \/ o = Killed SIGTERM q)).
Proof.
  unfold main, main_from. intros X.
  destruct (final_proc o) as [q|] eqn:Hq.
  - right.
    destruct (shell_loop_ends script
                (sigaction_SIGINT SIG_IGN (start int term input)) o q
                eq_refl X Hq) as [H|H];
      [left|right]; exists q; exact H.
  - left. destruct o; try discriminate Hq.
    exists why. split; [reflexivity|]. exact (shell_loop_fault _ _ _ X).
Qed.

Lemma X14_child_never_returns_witness :
  (exists why,
      main SIG_DFL SIG_DFL ("ls >" ++ nl)
           [mkIteration [] (mkReply 0 0 0 None 0 0 0 0 0 false)]
      = Undef why /\ parser_fault why)
  \/ (exists q,
        is_child q = true
        /\ (main SIG_DFL SIG_DFL ("ls >" ++ nl)
                 [mkIteration [] (mkReply 0 0 0 None 0 0 0 0 0 false)]
            = Exits 1 q
            \/ exists f a,
                 main SIG_DFL SIG_DFL ("ls >" ++ nl)
                      [mkIteration [] (mkReply 0 0 0 None 0 0 0 0 0 false)]
                 = Execs f a q))
  \/ (exists q,
        is_child q = false
        /\ (main SIG_DFL SIG_DFL ("ls >" ++ nl)
                 [mkIteration [] (mkReply 0 0 0 None 0 0 0 0 0 false)]
            = Waiting q
            \/ main SIG_DFL SIG_DFL ("ls >" ++ nl)
                    [mkIteration [] (mkReply 0 0 0 None 0 0 0 0 0 false)]
               = Exits 0 q
            \/ main SIG_DFL SIG_DFL ("ls >" ++ nl)
                    [mkIteration [] (mkReply 0 0 0 None 0 0 0 0 0 false)]
               = Exits 1 q
            \/ main SIG_DFL SIG_DFL ("ls >" ++ nl)
                    [mkIteration [] (mkReply 0 0 0 None 0 0 0 0 0 false)]
               = Killed SIGTERM q)).
Proof.
  exact (X14_child_never_returns SIG_DFL SIG_DFL ("ls >" ++ nl)
           [mkIteration [] (mkReply 0 0 0 None 0 0 0 0 0 false)]
           _ eq_refl).
Defined.

(** X15.  When the input redirection of a child fails, at [open] or at
    [dup2], the child exits with status 1 at once: it does not open the
    output file (which is therefore neither created nor truncated) and
    does not call [execvp]. *)
Theorem X15_input_failure_stops_child
    (name : string) (cmd c : Command) (os : os_reply) (p p1 : Proc)
    (f : string) :
  child_policy cmd p = (c, p1) ->
  wantsInputR c = 1 -> inRedirFile c = Some f ->
  open_in_ret os = -1 \/ dup2_in_ret os = -1 ->
  exists q evs,
    child name cmd os p = Exits 1 q
    /\ trace q = (trace p1 ++ evs)%list
    /\ existsb is_output_open evs = false
    /\ existsb is_execvp evs = false
    /\ fd1 q = fd1 p1.
Proof.
  intros Hpol Hw Hf Hfail. unfold child. rewrite Hpol. unfold redirect.
  rewrite Hw, Hf. simpl sys_open. simpl (1 =? 1). cbv iota.
  destruct (open_in_ret os =? -1) eqn:Ho.
  - eexists. eexists. cbn [obind]. split; [reflexivity|]. simpl.
    split; [rewrite <- app_assoc; reflexivity|]. repeat split.
  - destruct (dup2_in_ret os =? -1) eqn:Hd.
    + eexists. eexists. cbn [obind]. split; [reflexivity|]. simpl.
      split; [rewrite <- !app_assoc; reflexivity|]. repeat split.
    + apply Z.eqb_neq in Ho, Hd. destruct Hfail; contradiction.
Qed.

Lemma X15_input_failure_stops_child_witness :
  exists q evs,
    child "sort" (mkCommand ["sort"] 1 0 1 1 (Some "in") (Some "out"))
          (mkReply 0 0 0 None 0 3 4 (-1) 0 true)
          (emit (Fork 0) (start SIG_IGN SIG_DFL ""))
    = Exits 1 q
    /\ trace q
       = (trace (sigaction_SIGINT SIG_DFL
                   (emit (Fork 0) (start SIG_IGN SIG_DFL ""))) ++ evs)%list
    /\ existsb is_output_open evs = false
    /\ existsb is_execvp evs = false
    /\ fd1 q = Inherited.
Proof.
  apply (X15_input_failure_stops_child "sort"
           (mkCommand ["sort"] 1 0 1 1 (Some "in") (Some "out"))
           (mkCommand ["sort"] 1 0 1 1 (Some "in") (Some "out"))
           (mkReply 0 0 0 None 0 3 4 (-1) 0 true)
           (emit (Fork 0) (start SIG_IGN SIG_DFL ""))
           (sigaction_SIGINT SIG_DFL
              (emit (Fork 0) (start SIG_IGN SIG_DFL ""))) "in");
    try reflexivity.
  right. reflexivity.
Defined.

(** X16.  The program gets the arguments and nothing else: when a call of
    [execCommand] ends with a new image, the file executed is [argv[0]] and
    the argument vector is [argv] as the parser built it, which holds no
    [<], [>] or [&] (X5). *)
Theorem X16_exec_arguments
    (cmd : Command) (os : os_reply) (p q : Proc) (f : string)
    (a : list string) :
  execCommand cmd os p = Execs f a q ->
  a = argv cmd /\ exists args, argv cmd = f :: args.
Proof.
  intros X.
  destruct (execCommand_roles _ _ _ _ _ X eq_refl)
    as [(Hext & H0 & _)|(R & _)].
  - destruct (execCommand_child cmd os p Hext H0) as (name & args & Ha & Hc).
    rewrite Hc in X.
    destruct (child_shape _ _ _ _ _ _ X eq_refl) as [_ [H|H]];
      [discriminate H|].
    injection H as -> ->. split; [|exists args; exact Ha].
    unfold child_policy. destruct (isBgProcess cmd =? 0); [reflexivity|].
    destruct (inRedirFile cmd); destruct (wantsInputR cmd =? 1); simpl;
      destruct (outRedirFile cmd); destruct (wantsOutputR cmd =? 1);
      reflexivity.
  - destruct (execCommand_shell_outcomes _ _ _ _ _ X eq_refl R)
      as [H|[H|[H|H]]]; discriminate H.
Qed.

Lemma X16_exec_arguments_witness :
  ["ls"; "-l"] = argv (mkCommand ["ls"; "-l"] 2 1 0 1 None None)
  /\ exists args, argv (mkCommand ["ls"; "-l"] 2 1 0 1 None None)
                  = "ls" :: args.
Proof.
  eapply (X16_exec_arguments (mkCommand ["ls"; "-l"] 2 1 0 1 None None)
            (mkReply 0 0 0 None 0 0 3 0 1 true) (start SIG_IGN SIG_DFL "")).
  vm_compute. reflexivity.
Defined.

(** X17.  The steps of a foreground child whose two redirections succeed,
    in order: the default disposition of SIGINT; the input file opened
    read-only, put on descriptor 0 and the descriptor from [open] closed;
    the output file opened for writing (created, truncated), put on
    descriptor 1 and the descriptor from [open] closed; then [execvp].  The
    program starts with standard input and output bound to the two files,
    except that a standard descriptor which [open] itself returned is
    closed again by the [close] that follows the [dup2]. *)
Theorem X17_redirected_launch
    (name : string) (cmd : Command) (os : os_reply) (p : Proc)
    (fin fout : string) :
  isBgProcess cmd = 0 ->
  wantsInputR cmd = 1 -> inRedirFile cmd = Some fin ->
  wantsOutputR cmd = 1 -> outRedirFile cmd = Some fout ->
  open_in_ret os <> -1 -> dup2_in_ret os <> -1 ->
  open_out_ret os <> -1 -> dup2_out_ret os <> -1 ->
  execvp_found os = true ->
  exists q,
    child name cmd os p = Execs name (argv cmd) q
    /\ trace q
       = (trace p
          ++ [Sigaction SIGINT SIG_DFL;
              Open (Some fin) O_RDONLY (open_in_ret os);
              Dup2 (open_in_ret os) 0 (dup2_in_ret os);
              Close (open_in_ret os);
              Open (Some fout) (Z.lor O_WRONLY (Z.lor O_CREAT O_TRUNC))
                   (open_out_ret os);
              Dup2 (open_out_ret os) 1 (dup2_out_ret os);
              Close (open_out_ret os);
              Execvp name (argv cmd) true])%list
    /\ fd0 q = (if (open_in_ret os =? 0) || (open_out_ret os =? 0)
                then Closed else ToFile fin)
    /\ fd1 q = (if open_out_ret os =? 1 then Closed else ToFile fout)
    /\ sigint q = SIG_DFL /\ ENDSTATE q = ENDSTATE p.
Proof.
  intros Hfg Hwi Hfi Hwo Hfo Hoi Hdi Hoo Hdo Hfound.
  apply Z.eqb_neq in Hoi, Hdi, Hoo, Hdo.
  unfold child, child_policy. rewrite Hfg. simpl (0 =? 0). cbv iota.
  unfold redirect. rewrite Hwi, Hfi. simpl sys_open. simpl (1 =? 1). cbv iota.
  rewrite Hoi, Hdi. cbn [obind]. rewrite Hwo, Hfo. simpl sys_open.
  simpl (1 =? 1). cbv iota. rewrite Hoo, Hdo. cbn [obind].
  unfold do_execvp. rewrite Hfound. eexists. split; [reflexivity|].
  unfold bind_fd. simpl (0 =? 0). simpl (1 =? 0). simpl (1 =? 1). cbv iota.
  destruct (Z.eqb_spec (open_in_ret os) 0) as [I0|I0];
    destruct (Z.eqb_spec (open_in_ret os) 1) as [I1|I1];
    destruct (Z.eqb_spec (open_out_ret os) 0) as [O0|O0];
    destruct (Z.eqb_spec (open_out_ret os) 1) as [O1|O1];
    try (exfalso; congruence);
    simpl; rewrite <- !app_assoc; repeat split.
Qed.

Lemma X17_redirected_launch_witness :
  exists q,
    child "wc" (mkCommand ["wc"; "-l"] 2 0 1 1 (Some "in") (Some "out"))
          (mkReply 0 0 0 None 0 3 3 0 1 true)
          (emit (Fork 0) (start SIG_IGN SIG_DFL ""))
    = Execs "wc" ["wc"; "-l"] q
    /\ fd0 q = ToFile "in" /\ fd1 q = ToFile "out" /\ sigint q = SIG_DFL.
Proof.
  destruct (X17_redirected_launch "wc"
              (mkCommand ["wc"; "-l"] 2 0 1 1 (Some "in") (Some "out"))
              (mkReply 0 0 0 None 0 3 3 0 1 true)
              (emit (Fork 0) (start SIG_IGN SIG_DFL "")) "in" "out"
              eq_refl eq_refl eq_refl eq_refl eq_refl
              ltac:(discriminate) ltac:(discriminate)
              ltac:(discriminate) ltac:(discriminate) eq_refl)
    as (q & Hq & _ & H0 & H1 & Hs & _).
  exists q. repeat split; assumption.
Defined.

Section Composition.

(** Leading arguments are stored and the loop goes on with what follows. *)
Lemma parse_tokens_arguments (args rest : list string) :
  Forall (fun t => is_marker t = false) args ->
  forall c,
    argc c + Z.of_nat (List.length args) <= MAX_CMD_ARGS ->
    parse_tokens (args ++ rest) c
    = parse_tokens rest
        (mkCommand (argv c ++ args) (argc c + Z.of_nat (List.length args))
                   (isBgProcess c) (wantsInputR c) (wantsOutputR c)
                   (inRedirFile c) (outRedirFile c)).
Proof.
  induction 1 as [|t more Ht Hmore IH]; intros c Hroom.
  - simpl. rewrite app_nil_r, Z.add_0_r. destruct c; reflexivity.
  - unfold is_marker in Ht. apply orb_false_elim in Ht. destruct Ht as [Ht Eamp].
    apply orb_false_elim in Ht. destruct Ht as [Elt Egt].
    change (List.length (t :: more)) with (S (List.length more)) in *.
    rewrite Nat2Z.inj_succ in *.
    simpl app. simpl parse_tokens. rewrite Elt, Egt, Eamp. unfold push_arg.
    assert (Hlt : (argc c <? MAX_CMD_ARGS) = true) by (apply Z.ltb_lt; lia).
    rewrite Hlt. simpl rbind. rewrite IH; [|simpl; lia]. simpl.
    rewrite <- app_assoc. simpl. f_equal. f_equal. lia.
Qed.

End Composition.

(** X18.  A line made of at most 511 plain arguments followed by
    [< fin > fout] is parsed into these arguments with both redirections
    requested, in the foreground; the token after a redirection symbol is
    taken as the path whatever it is.  With [&] as a further, last token the
    same descriptor is marked for the background. *)
Theorem X18_redirection_line (input : string) (args : list string)
    (fin fout : string) :
  Forall (fun t => is_marker t = false) args ->
  Z.of_nat (List.length args) < MAX_CMD_ARGS ->
  (strtok_all input = (args ++ ["<"; fin; ">"; fout])%list ->
   parse_input input
   = Ok (mkCommand args (Z.of_nat (List.length args)) 0 1 1
                   (Some fin) (Some fout)))
  /\ (strtok_all input = (args ++ ["<"; fin; ">"; fout; "&"])%list ->
      parse_input input
      = Ok (mkCommand args (Z.of_nat (List.length args)) 1 1 1
                      (Some fin) (Some fout))).
Proof.
  intros Hplain Hlen. apply Z.ltb_lt in Hlen as Hb.
  split; intros Htok; unfold parse_input; rewrite Htok;
    rewrite (parse_tokens_arguments _ _ Hplain initCommand)
      by (simpl; lia);
    simpl; unfold terminate_argv; simpl; rewrite Hb; reflexivity.
Qed.

Lemma X18_redirection_line_witness :
  parse_input ("sort -r < > > < &" ++ nl)
  = Ok (mkCommand ["sort"; "-r"] 2 1 1 1 (Some ">") (Some "<")).
Proof.
  apply (proj2 (X18_redirection_line ("sort -r < > > < &" ++ nl)
                  ["sort"; "-r"] ">" "<"
                  ltac:(repeat constructor) ltac:(reflexivity))).
  vm_compute. reflexivity.
Defined.

(** ** The reaper and the prompt *)

Section Passes.

Lemma no_line_no_fgets (evs : list event) :
  lines_read evs = [] -> existsb is_fgets evs = false.
Proof.
  induction evs as [|e evs IH]; [reflexivity|].
  destruct e; simpl; try exact IH. discriminate.
Qed.

Lemma reads_prompted_skip (evs : list event) :
  existsb is_fgets evs = false ->
  forall r, reads_prompted_rev (rev evs ++ r) = reads_prompted_rev r.
Proof.
  induction evs as [|e evs IH]; [reflexivity|].
  simpl. intros H r. apply orb_false_elim in H. destruct H as [He H].
  rewrite <- app_assoc, (IH H). simpl.
  destruct e; try reflexivity. discriminate He.
Qed.

(** What the record holds after a foreground launch, in the shell. *)
Lemma parent_record (cmd : Command) (os : os_reply) (p : Proc)
    (t : termination) :
  external cmd = true -> isBgProcess cmd = 0 -> 0 < fork_ret os ->
  valid_termination t -> wait_status os = wait_status_of t ->
  exists q, execCommand cmd os p = Returns 0 q /\ ENDSTATE q = describe t.
Proof.
  intros Hext Hfg Hpid Hv Hst.
  destruct (execCommand_external cmd os p Hext) as (name & args & _ & ->).
  unfold launch.
  assert (H0 : (fork_ret os =? 0) = false) by (apply Z.eqb_neq; lia).
  assert (H1 : (fork_ret os >? 0) = true) by (apply Z.gtb_lt; lia).
  rewrite H0, H1. unfold parent. rewrite Hfg. simpl (0 =? 0). cbv iota.
  rewrite Hst. destruct t as [code|sig core].
  - destruct (decode_exited code Hv) as [-> ->].
    eexists. split; reflexivity.
  - destruct (decode_signaled sig core Hv) as (-> & -> & ->).
    eexists. split; reflexivity.
Qed.

End Passes.

(** X19.  The reaper changes nothing but the trace: whatever [waitpid]
    answers, [cleanUp] leaves the process-exit record, the signal
    dispositions, the descriptors and the unread input as they were; all it
    does is wait without blocking, at least once, and print on standard
    output. *)
Theorem X19_reaper_changes_nothing (answers : list (Z * Z)) (p : Proc) :
  exists evs,
    cleanUp answers p = emits evs p
    /\ forallb reaper_event evs = true
    /\ existsb is_waitpid evs = true.
Proof.
  revert p. induction answers as [|[pid status] more IH]; intros p.
  - eexists [_]. repeat split.
  - simpl. destruct (pid >? 0).
    + destruct (report_done_emits pid status
                  (emit (Waitpid (-1) WNOHANG pid status) p)) as (e1 & -> & H1).
      destruct (IH (emits e1 (emit (Waitpid (-1) WNOHANG pid status) p)))
        as (e2 & -> & H2 & _).
      exists (Waitpid (-1) WNOHANG pid status :: e1 ++ e2)%list. split.
      * unfold emits, emit. simpl. now rewrite <- !app_assoc.
      * simpl. rewrite forallb_app, H1, H2. split; reflexivity.
    + eexists [_]. repeat split.
Qed.

(** X20.  The prompt comes before every read: in the trace of any session
    each [fgets] is immediately preceded by the writing of ": " to standard
    output. *)
Theorem X20_prompt_before_read
    (int term : sighandler) (input : string) (script : list iteration)
    (o : outcome Z) (q : Proc) :
  main int term input script = o -> final_proc o = Some q ->
  reads_prompted (trace q) = true.
Proof.
  unfold main, main_from.
  apply (shell_loop_invariant (fun p => reads_prompted (trace p) = true)).
  - intros answers p Hp.
    destruct (cleanUp_emits answers p) as (evs & -> & Hr).
    destruct (reaper_events_inert evs Hr) as (L & _).
    unfold reads_prompted. simpl.
    rewrite rev_app_distr, (reads_prompted_skip _ (no_line_no_fgets _ L)).
    exact Hp.
  - intros p cmd p1 os o' q' Hp G X Hq.
    apply getCommand_emits in G.
    destruct (execCommand_summary _ _ _ _ _ X Hq) as (_ & evs & Tr & L & _).
    unfold reads_prompted.
    rewrite Tr, rev_app_distr, (reads_prompted_skip _ (no_line_no_fgets _ L)).
    rewrite G. simpl. rewrite rev_app_distr. simpl. exact Hp.
  - reflexivity.
Qed.

Lemma X20_prompt_before_read_witness :
  reads_prompted [Sigaction SIGINT SIG_IGN; Waitpid (-1) WNOHANG (-1) 0;
                  Write 1 ": "; Fgets ("status" ++ nl);
                  Write 1 ("NULL" ++ nl)] = true.
Proof.
  exact (X20_prompt_before_read SIG_DFL SIG_DFL ("status" ++ nl)
           [mkIteration [] (mkReply 0 0 0 None 0 0 0 0 0 false)]
           _ _ eq_refl eq_refl).
Defined.

(** X21.  [status] reports the last foreground command whose wait
    succeeded: when the blocking [waitpid] of a foreground launch returned
    the pid of the child and stored the status of a child that ended
    normally or by a signal, a [status] in the next pass prints "exit value
    N" or "terminated by signal N" for it, whatever background jobs the
    reaper collects in between, and leaves "exit value 0" in the record.
    (When that [waitpid] failed, [status] prints what the unset word
    decodes to, see C4.) *)
Theorem X21_status_after_foreground
    (p p1 q1 p2 : Proc) (it1 it2 : iteration) (c1 c2 : Command)
    (t : termination) :
  getCommand (cleanUp (reaped it1) p) = Returns c1 p1 ->
  external c1 = true -> isBgProcess c1 = 0 -> 0 < fork_ret (reply it1) ->
  wait_ret (reply it1) = fork_ret (reply it1) ->
  valid_termination t -> wait_status (reply it1) = wait_status_of t ->
  execCommand c1 (reply it1) p1 = Returns 0 q1 ->
  getCommand (cleanUp (reaped it2) q1) = Returns c2 p2 ->
  builtin "status" c2 = true ->
  shell_loop [it1; it2] p
  = Waiting (set_ENDSTATE "exit value 0"
               (emit (Write 1 (describe t ++ nl)) p2)).
Proof.
  intros G1 Hext Hfg Hpid _ Hv Hst X1 G2 B.
  destruct (parent_record c1 (reply it1) p1 t Hext Hfg Hpid Hv Hst)
    as (q & Xq & Eq).
  rewrite X1 in Xq. injection Xq as <-.
  destruct (read_step_keeps _ _ _ _ G2) as (E2 & _).
  simpl shell_loop. rewrite G1. cbn [obind]. rewrite X1. cbn [obind].
  simpl (0 =? 0). cbv iota. rewrite G2. cbn [obind].
  rewrite (execCommand_status c2 (reply it2) p2 B), E2, Eq. reflexivity.
Qed.

Lemma X21_status_after_foreground_witness :
  exists q,
    shell_loop [mkIteration []
                  (mkReply 12 12 (wait_status_of (Exited 3)) None 0 0 0 0 0 true);
                mkIteration [(11, 0)] (mkReply 0 0 0 None 0 0 0 0 0 false)]
               (start SIG_IGN SIG_DFL ("grep x y" ++ nl ++ "status" ++ nl))
    = Waiting q
    /\ last (trace q) (Fork 0) = Write 1 ("exit value 3" ++ nl).
Proof.
  eexists. split.
  - eapply (X21_status_after_foreground
              (start SIG_IGN SIG_DFL ("grep x y" ++ nl ++ "status" ++ nl))
              _ _ _ _ _ _ _ (Exited 3)).
    + vm_compute. reflexivity.
    + reflexivity.
    + reflexivity.
    + simpl. lia.
    + reflexivity.
    + simpl. lia.
    + reflexivity.
    + vm_compute. reflexivity.
    + vm_compute. reflexivity.
    + reflexivity.
  - reflexivity.
Defined.

(** ** The reaper in the loop *)

Section Sweeps.










End Sweeps.


